(** * go-eth2-client: the HTTP [Spec] decoder and the multi-client [Fork] call

    A shallow embedding of [http/spec.go] ([Service.Spec]) and of the multi
    client's [Service.Fork], together with the parts of the Go standard
    library they call ([strings], [encoding/hex], [strconv], [time]).

    Go strings are byte sequences, so they are Rocq [string]s (lists of
    8-bit [ascii]); a byte is a [Z] in [0, 256); [uint64] and [int64] are
    [Z] with the wrap-around written out; [map[string]T] is
    [gmap string T]. *)

From Stdlib Require Import ZArith Ascii String List Lia Bool.
From stdpp Require Import base option list strings gmap fin_maps.

Local Open Scope string_scope.
Local Open Scope Z_scope.

(** ** Machine integers *)

Module Int.

Definition two64 : Z := 2 ^ 64.
Definition two63 : Z := 2 ^ 63.

(** Conversion to [uint64]: the low 64 bits. *)
Definition to_uint64 (z : Z) : Z := z mod two64.

(** Conversion to [int64]: the low 64 bits, read in two's complement. *)
Definition to_int64 (z : Z) : Z := (z + two63) mod two64 - two63.

(** Conversion to [int32]: the low 32 bits, read in two's complement. *)
Definition to_int32 (z : Z) : Z := (z + 2 ^ 31) mod 2 ^ 32 - 2 ^ 31.

End Int.

(** ** package strings *)

Module Strings.

(** [s[lo:]] *)
Definition from (lo : nat) (s : string) : string :=
  substring lo (String.length s - lo) s.

(** [func HasPrefix(s, prefix string) bool]
    [len(s) >= len(prefix) && s[:len(prefix)] == prefix] *)
Definition HasPrefix (s prefix : string) : bool :=
  (String.length prefix <=? String.length s)%nat
  && String.eqb (substring 0 (String.length prefix) s) prefix.

(** [func HasSuffix(s, suffix string) bool]
    [len(s) >= len(suffix) && s[len(s)-len(suffix):] == suffix] *)
Definition HasSuffix (s suffix : string) : bool :=
  (String.length suffix <=? String.length s)%nat
  && String.eqb (from (String.length s - String.length suffix) s) suffix.

(** [func TrimPrefix(s, prefix string) string] *)
Definition TrimPrefix (s prefix : string) : string :=
  if HasPrefix s prefix then from (String.length prefix) s else s.

End Strings.

(** ** package encoding/hex *)

Module Hex.

Inductive error : Type :=
| InvalidByteError (c : ascii)
| ErrLength.

Definition code (c : ascii) : Z := Z.of_N (N_of_ascii c).

(** [reverseHexTable]: the value of a hexadecimal digit, [0xff] for every
    other byte. *)
Definition reverseHexTable (c : ascii) : Z :=
  let n := code c in
  if (48 <=? n) && (n <=? 57) then n - 48
  else if (97 <=? n) && (n <=? 102) then n - 97 + 10
  else if (65 <=? n) && (n <=? 70) then n - 65 + 10
  else 255.

(** [func Decode(dst, src []byte) (int, error)]: the bytes written to
    [dst] and the error.  The loop consumes two characters per round; a
    single character left over is reported as invalid if it is no digit
    and as [ErrLength] otherwise. *)
Fixpoint Decode (src : string) : list Z * option error :=
  match src with
  | EmptyString => ([], None)
  | String p EmptyString =>
      if reverseHexTable p >? 15 then ([], Some (InvalidByteError p))
      else ([], Some ErrLength)
  | String p (String q rest) =>
      let a := reverseHexTable p in
      let b := reverseHexTable q in
      if a >? 15 then ([], Some (InvalidByteError p))
      else if b >? 15 then ([], Some (InvalidByteError q))
      else
        let '(out, err) := Decode rest in
        (Z.lor (Z.shiftl a 4) b :: out, err)
  end.

(** [func DecodeString(s string) ([]byte, error)] *)
Definition DecodeString (s : string) : list Z * option error := Decode s.

End Hex.

(** ** package strconv, at base 10 and bit size 64 *)

Module Strconv.

Inductive NumError : Type :=
| ErrSyntax
| ErrRange.

Definition maxVal : Z := Int.two64 - 1.

(** The smallest number such that [cutoff * 10 > maxUint64]. *)
Definition cutoff : Z := maxVal / 10 + 1.

(** The digit loop of [ParseUint]; [n] is the value read so far.  A
    letter is a digit of value 10 or more, which base 10 rejects like any
    other non-digit. *)
Fixpoint digits (s : string) (n : Z) : Z * option NumError :=
  match s with
  | EmptyString => (n, None)
  | String c rest =>
      let c' := Hex.code c in
      if (48 <=? c') && (c' <=? 57) then
        let d := c' - 48 in
        if n >=? cutoff then (maxVal, Some ErrRange)
        else
          let n10 := Int.to_uint64 (n * 10) in
          let n1 := Int.to_uint64 (n10 + d) in
          if (n1 <? n10) || (n1 >? maxVal) then (maxVal, Some ErrRange)
          else digits rest n1
      else (0, Some ErrSyntax)
  end.

(** [ParseUint(s, 10, 64)] *)
Definition ParseUint (s : string) : Z * option NumError :=
  match s with
  | EmptyString => (0, Some ErrSyntax)
  | _ => digits s 0
  end.

(** [ParseInt(s, 10, 64)] *)
Definition ParseInt (s0 : string) : Z * option NumError :=
  match s0 with
  | EmptyString => (0, Some ErrSyntax)
  | String c0 tl =>
      let '(neg, s) :=
        if Ascii.eqb c0 "+" then (false, tl)
        else if Ascii.eqb c0 "-" then (true, tl)
        else (false, s0) in
      match ParseUint s with
      | (_, Some ErrSyntax) => (0, Some ErrSyntax)
      | (un, _) =>
          let cutoff := Int.two63 in
          if negb neg && (un >=? cutoff) then (cutoff - 1, Some ErrRange)
          else if neg && (un >? cutoff) then (- cutoff, Some ErrRange)
          else
            let n := Int.to_int64 un in
            (if neg then Int.to_int64 (- n) else n, None)
      end
  end.

End Strconv.

(** ** package time *)

Module Time.

(** [type Location]; [Unix] makes its times in [Local]. *)
Inductive Location : Type :=
| Local
| UTC.

(** [type Time struct { wall uint64; ext int64; loc *Location }].  The top
    bit of [wall] says whether the time carries a reading of the monotonic
    clock.  Without one, the low 30 bits of [wall] are the nanoseconds
    within the second, and [ext] is the number of seconds since January 1
    of year 1. *)
Record Time : Type := mkTime { wall : Z; ext : Z; loc : Location }.

Definition secondsPerDay : Z := 86400.

(** The seconds from January 1 of year 1 to the Unix epoch, and back. *)
Definition unixToInternal : Z :=
  (1969 * 365 + 1969 / 4 - 1969 / 100 + 1969 / 400) * secondsPerDay.
Definition internalToUnix : Z := - unixToInternal.

(** The seconds from January 1 of year 1 to January 1 of 1885. *)
Definition wallToInternal : Z :=
  (1884 * 365 + 1884 / 4 - 1884 / 100 + 1884 / 400) * secondsPerDay.

Definition hasMonotonic : Z := Z.shiftl 1 63.
Definition nsecMask : Z := Z.shiftl 1 30 - 1.
Definition nsecShift : Z := 30.

(** [func unixTime(sec int64, nsec int32) Time]:
    [Time{uint64(nsec), sec + unixToInternal, Local}]; the sum is an
    [int64] and wraps. *)
Definition unixTime (sec nsec : Z) : Time :=
  mkTime (Int.to_uint64 nsec) (Int.to_int64 (sec + unixToInternal)) Local.

(** [func Unix(sec int64, nsec int64) Time] *)
Definition Unix (sec nsec : Z) : Time :=
  if (nsec <? 0) || (nsec >=? 1000000000) then
    let n := Z.quot nsec 1000000000 in
    let sec := Int.to_int64 (sec + n) in
    let nsec := nsec - n * 1000000000 in
    if nsec <? 0
    then unixTime (Int.to_int64 (sec - 1)) (Int.to_int32 (nsec + 1000000000))
    else unixTime sec (Int.to_int32 nsec)
  else unixTime sec (Int.to_int32 nsec).

(** [func (t *Time) nsec() int32]: the nanoseconds within the second. *)
Definition nsec (t : Time) : Z := Int.to_int32 (Z.land (wall t) nsecMask).

(** [func (t *Time) sec() int64]: the seconds since January 1 of year 1. *)
Definition sec (t : Time) : Z :=
  if negb (Z.land (wall t) hasMonotonic =? 0) then
    Int.to_int64
      (wallToInternal
       + Int.to_int64 (Z.shiftr (Int.to_uint64 (Z.shiftl (wall t) 1))
                                (nsecShift + 1)))
  else ext t.

(** [func (t Time) Unix() int64], which is [t.sec() + internalToUnix]:
    the seconds since the Unix epoch, as an [int64]. *)
Definition unixSec (t : Time) : Z := Int.to_int64 (sec t + internalToUnix).

(** [type Duration int64], in nanoseconds. *)
Definition Duration : Type := Z.
Definition Second : Duration := 1000000000.

End Time.

(** ** package spec/phase0 *)

Module Phase0.

(** Modelled from the spec: the declarations of [phase0.DomainType] and
    [phase0.Version] are not part of the sources; section 4.3 gives both
    as fixed-length 4-byte values, and [spec.go] builds a [DomainType]
    from four byte literals.  A [[4]byte] is the list of its four bytes. *)
Definition DomainType : Type := list Z.

(** [phase0.Version], a [[4]byte] like [DomainType]. *)
Definition Version : Type := list Z.

(** The zero value of a [[4]byte]. *)
Definition zero : list Z := [0; 0; 0; 0].

(** The builtin [copy(dst, src)]: the first [min(len(dst), len(src))]
    elements of [src] overwrite those of [dst]; the result is the new
    content of [dst]. *)
Definition copy (dst src : list Z) : list Z :=
  let n := Nat.min (length dst) (length src) in
  take n src ++ drop n dst.

End Phase0.

(** ** package http: [Service.Spec] *)

Module Http.

(** Go [error] values: those made by [github.com/pkg/errors], and the
    ones that come out of the transport and of the JSON decoder. *)
Inductive error : Type :=
| New (msg : string)
| Wrap (cause : error) (msg : string)
| External (msg : string).

(** The dynamic types stored in the [map[string]interface{}]. *)
Inductive specValue : Type :=
| VDomainType (d : Phase0.DomainType)
| VVersion (v : Phase0.Version)
| VBytes (b : list Z)
| VTime (t : Time.Time)
| VDuration (d : Time.Duration)
| VUint64 (n : Z)
| VString (s : string).

(** Each [if] block of the loop body either stores a value for the key
    and [continue]s ([Some]), or falls through to the next ([None]). *)

(** Handle domains. *)
Definition domainRule (k v : string) : option specValue :=
  if Strings.HasPrefix k "DOMAIN_" then
    match Hex.DecodeString (Strings.TrimPrefix v "0x") with
    | (byteVal, None) => Some (VDomainType (Phase0.copy Phase0.zero byteVal))
    | (_, Some _) => None
    end
  else None.

(** Handle fork versions. *)
Definition forkVersionRule (k v : string) : option specValue :=
  if Strings.HasSuffix k "_FORK_VERSION" then
    match Hex.DecodeString (Strings.TrimPrefix v "0x") with
    | (byteVal, None) => Some (VVersion (Phase0.copy Phase0.zero byteVal))
    | (_, Some _) => None
    end
  else None.

(** Handle hex strings. *)
Definition hexRule (k v : string) : option specValue :=
  if Strings.HasPrefix v "0x" then
    match Hex.DecodeString (Strings.TrimPrefix v "0x") with
    | (byteVal, None) => Some (VBytes byteVal)
    | (_, Some _) => None
    end
  else None.

(** Handle times. *)
Definition timeRule (k v : string) : option specValue :=
  if Strings.HasSuffix k "_TIME" then
    match Strconv.ParseInt v with
    | (intVal, None) =>
        if negb (intVal =? 0) then Some (VTime (Time.Unix intVal 0)) else None
    | (_, Some _) => None
    end
  else None.

(** Handle durations: [time.Duration(intVal) * time.Second]. *)
Definition durationRule (k v : string) : option specValue :=
  if Strings.HasPrefix k "SECONDS_PER_" || String.eqb k "GENESIS_DELAY" then
    match Strconv.ParseUint v with
    | (intVal, None) =>
        if negb (intVal =? 0)
        then Some (VDuration (Int.to_int64 (Int.to_int64 intVal * Time.Second)))
        else None
    | (_, Some _) => None
    end
  else None.

(** Handle integers: the literal ["0"]. *)
Definition zeroRule (k v : string) : option specValue :=
  if String.eqb v "0" then Some (VUint64 0) else None.

(** Handle integers: a nonzero [uint64]. *)
Definition integerRule (k v : string) : option specValue :=
  match Strconv.ParseUint v with
  | (intVal, None) => if negb (intVal =? 0) then Some (VUint64 intVal) else None
  | (_, Some _) => None
  end.

Definition rule : Type := string -> string -> option specValue.

(** The blocks in the order of the loop body. *)
Definition rules : list rule :=
  [domainRule; forkVersionRule; hexRule; timeRule; durationRule; zeroRule;
   integerRule].

Fixpoint firstMatch (rs : list rule) (k v : string) : option specValue :=
  match rs with
  | [] => None
  | r :: rs' =>
      match r k v with
      | Some x => Some x
      | None => firstMatch rs' k v
      end
  end.

(** The loop body: the value stored in [config[k]]; when no block stored
    one, "assume string". *)
Definition decodeEntry (k v : string) : specValue :=
  match firstMatch rules k v with
  | Some x => x
  | None => VString v
  end.

(** One round of [for k, v := range specJSON.Data { ... }]. *)
Definition rangeBody (config : gmap string specValue) (kv : string * string)
    : gmap string specValue :=
  <[kv.1 := decodeEntry kv.1 kv.2]> config.

(** The loop over the entries in the order [entries], starting from the
    empty [config].  Go leaves the order of a [range] over a map open. *)
Definition decodeEntries (entries : list (string * string))
    : gmap string specValue :=
  fold_left rangeBody entries ∅.

(** The loop, in the order in which [map_to_list] lists the map. *)
Definition decodeData (data : gmap string string) : gmap string specValue :=
  decodeEntries (map_to_list data).

(** [if _, exists := config[k]; !exists { config[k] = d }] *)
Definition addIfMissing (k : string) (d : specValue)
    (config : gmap string specValue) : gmap string specValue :=
  match config !! k with
  | Some _ => config
  | None => <[k := d]> config
  end.

(** The constants that Lighthouse does not provide. *)
Definition patches : list (string * specValue) :=
  [ ("DOMAIN_CONTRIBUTION_AND_PROOF", VDomainType [9; 0; 0; 0]);
    ("DOMAIN_SYNC_COMMITTEE", VDomainType [7; 0; 0; 0]);
    ("DOMAIN_SYNC_COMMITTEE_SELECTION_PROOF", VDomainType [8; 0; 0; 0]);
    ("SYNC_COMMITTEE_SUBNET_COUNT", VUint64 4);
    ("TARGET_AGGREGATORS_PER_SYNC_SUBCOMMITTEE", VUint64 16) ].

Definition patch (config : gmap string specValue) : gmap string specValue :=
  fold_left (fun c p => addIfMissing p.1 p.2 c) patches config.

(** Lines 59 to 141: from the decoded JSON to the configuration. *)
Definition buildConfig (data : gmap string string) : gmap string specValue :=
  patch (decodeData data).

(** [type specJSON struct { Data map[string]string }]; a nil map ranges
    like the empty one. *)
Record specJSON : Type := mkSpecJSON { Data : gmap string string }.

(** A response body, as what [json.NewDecoder(body).Decode(&specJSON)]
    makes of it. *)
Record reader : Type := mkReader { decoded : specJSON; decodeErr : option error }.

(** The transport behind [s.get]: the outcome [(respBodyReader, err)] of
    each request to come, and the number of requests made so far. *)
Record transport : Type := mkTransport {
  outcomes : nat -> option reader * option error;
  requests : nat
}.

Definition get (t : transport) : (option reader * option error) * transport :=
  (outcomes t (requests t), mkTransport (outcomes t) (S (requests t))).

(** [type Service struct { ...; spec map[string]interface{} }]; [None]
    is the nil map. *)
Record Service : Type := mkService { spec : option (gmap string specValue) }.

Definition result : Type := option (gmap string specValue) * option error.

(** Lines 40 to 144 of [Spec], which run with [s.specMutex] held: the
    second test of [s.spec], the request, the decoding and the store. *)
Definition lockedSpec (s : Service) (t : transport)
    : result * Service * transport :=
  match spec s with
  | Some config => ((Some config, None), s, t)
  | None =>
      let '((respBodyReader, err), t') := get t in
      match err with
      | Some e => ((None, Some (Wrap e "failed to request spec")), s, t')
      | None =>
          match respBodyReader with
          | None => ((None, Some (New "failed to obtain spec")), s, t')
          | Some body =>
              match decodeErr body with
              | Some e => ((None, Some (Wrap e "failed to parse spec")), s, t')
              | None =>
                  let config := buildConfig (Data (decoded body)) in
                  ((Some config, None), mkService (Some config), t')
              end
          end
      end
  end.

(** [func (s *Service) Spec(ctx) (map[string]interface{}, error)]: the
    test of [s.spec] without the lock, then the locked part. *)
Definition Spec (s : Service) (t : transport)
    : result * Service * transport :=
  match spec s with
  | Some config => ((Some config, None), s, t)
  | None => lockedSpec s t
  end.

(** [n] calls of [Spec] one after the other: the results in order, and
    the state they leave. *)
Fixpoint SpecCalls (n : nat) (s : Service) (t : transport)
    : list result * Service * transport :=
  match n with
  | O => ([], s, t)
  | S n' =>
      let '(r, s1, t1) := Spec s t in
      let '(rs, s2, t2) := SpecCalls n' s1 t1 in
      (r :: rs, s2, t2)
  end.

(** *** Calls of [Spec] from several goroutines

    A call is at one of three places: before its first test of [s.spec],
    past that test and waiting for [s.specMutex], or returned.  The mutex
    makes the locked part of one call run without the locked part of
    another in between. *)
Inductive call : Type :=
| Entering
| AtLock
| Returned (r : result).

Record system : Type := mkSystem {
  service : Service;
  network : transport;
  calls : list call
}.

Inductive step : system -> system -> Prop :=
| step_cached s t cs i config :
    cs !! i = Some Entering ->
    spec s = Some config ->
    step (mkSystem s t cs)
         (mkSystem s t (<[i := Returned (Some config, None)]> cs))
| step_to_lock s t cs i :
    cs !! i = Some Entering ->
    spec s = None ->
    step (mkSystem s t cs) (mkSystem s t (<[i := AtLock]> cs))
| step_locked s t cs i r s' t' :
    cs !! i = Some AtLock ->
    lockedSpec s t = (r, s', t') ->
    step (mkSystem s t cs) (mkSystem s' t' (<[i := Returned r]> cs))
| step_new_call s t cs :
    step (mkSystem s t cs) (mkSystem s t (cs ++ [Entering])).

Inductive steps : system -> system -> Prop :=
| steps_refl x : steps x x
| steps_step x y z : step x y -> steps y z -> steps x z.

End Http.

(** ** package multi: [Service.Fork] *)

Module Multi.

(** A Go call either returns or panics. *)
Inductive outcome (A : Type) : Type :=
| Returns (a : A)
| Panics (msg : string).
Arguments Returns {A} a.
Arguments Panics {A} msg.

Section Fork.

(** [phase0.Fork]; its declaration is not part of the sources, and
    [Fork] only passes pointers to it along. *)
Variable ForkT : Type.

(** [error] values of the backends and of the dispatch engine. *)
Variable error : Type.

(** An [eth2client.Service]: a backend handle.  It may implement
    [eth2client.ForkProvider], whose method [Fork(ctx, stateID)]
    returns a [*phase0.Fork] that may be the nil pointer ([None]) and
    an error that may be nil. *)
Record Client : Type := mkClient {
  Name : string;
  forkProvider : option (string -> option ForkT * option error)
}.

(** An [interface{}] value: nil, a [*phase0.Fork] (itself possibly a
    nil pointer), or a value of another dynamic type. *)
Inductive iface : Type :=
| Nil
| ForkPtr (p : option ForkT)
| Other (typeName : string).

Definition callFunc : Type := Client -> outcome (iface * option error).

(** The function literal passed to [s.doCall] (lines 25 to 31).  The
    type assertion [client.(eth2client.ForkProvider)] has no [ok]
    result: it panics when the client lacks the method. *)
Definition forkCall (stateID : string) : callFunc :=
  fun client =>
    match forkProvider client with
    | None =>
        Panics "interface conversion: eth2client.Service is not eth2client.ForkProvider: missing method Fork"
    | Some provider =>
        let '(fork, err) := provider stateID in
        match err with
        | Some e => Returns (Nil, Some e)
        | None => Returns (ForkPtr fork, None)
        end
    end.

(** [s.doCall(ctx, call, errHandler)] is not part of the sources: the
    dispatch engine is taken as it comes.  The error handler passed by
    [Fork] is nil. *)
Variable doCall : callFunc -> outcome (iface * option error).

(** [func (s *Service) Fork(ctx, stateID)], which returns a
    [*spec.Fork] and an error (lines 24 to 39). *)
Definition Fork (stateID : string) : outcome (option ForkT * option error) :=
  match doCall (forkCall stateID) with
  | Panics msg => Panics msg
  | Returns (res, err) =>
      match err with
      | Some e => Returns (None, Some e)
      | None =>
          match res with
          | Nil => Returns (None, None)
          | ForkPtr p => Returns (p, None)
          | Other typeName =>
              Panics ("interface conversion: interface {} is " +:+ typeName +:+ ", not *phase0.Fork")
          end
      end
  end.

End Fork.

Arguments Nil {ForkT}.
Arguments ForkPtr {ForkT} p.
Arguments Other {ForkT} typeName.
Arguments mkClient {ForkT error} Name forkProvider.
Arguments Name {ForkT error} c.
Arguments forkProvider {ForkT error} c.
Arguments forkCall {ForkT error} stateID client.
Arguments Fork {ForkT error} doCall stateID.

(** Modelled from the spec: the dispatch engine in its [PassThrough]
    mode, which is not part of the sources.  Section 4.2: "exactly one
    handle is configured; the engine invokes [operation] once against it
    and returns its outcome unchanged, including propagating its error
    verbatim". *)
Definition doCallPassThrough {ForkT error : Type} (handle : Client ForkT error)
    (operation : callFunc ForkT error) : outcome (iface ForkT * option error) :=
  operation handle.

End Multi.

(** * Vocabulary of the properties *)

Definition is_byte (b : Z) : Prop := 0 <= b < 256.

(** A hexadecimal digit, in either case. *)
Definition isHexDigit (c : ascii) : bool :=
  let n := Hex.code c in
  (48 <=? n) && (n <=? 57) || (97 <=? n) && (n <=? 102)
  || (65 <=? n) && (n <=? 70).

Fixpoint allHexDigits (s : string) : bool :=
  match s with
  | EmptyString => true
  | String c rest => isHexDigit c && allHexDigits rest
  end.

(** Decimal numerals: the digits, the number they denote after the digits
    already read ([acc]), and the integer that an optionally signed
    numeral denotes. *)
Definition isDigit (c : ascii) : bool :=
  (48 <=? Hex.code c) && (Hex.code c <=? 57).

Fixpoint allDigits (s : string) : bool :=
  match s with
  | EmptyString => true
  | String c rest => isDigit c && allDigits rest
  end.

Fixpoint decimalValue (s : string) (acc : Z) : Z :=
  match s with
  | EmptyString => acc
  | String c rest => decimalValue rest (acc * 10 + (Hex.code c - 48))
  end.

Definition unsignedDecimal (s : string) : option Z :=
  match s with
  | EmptyString => None
  | _ => if allDigits s then Some (decimalValue s 0) else None
  end.

Definition signedDecimal (s : string) : option Z :=
  match s with
  | EmptyString => None
  | String c rest =>
      if Ascii.eqb c "+" then unsignedDecimal rest
      else if Ascii.eqb c "-" then Z.opp <$> unsignedDecimal rest
      else unsignedDecimal s
  end.

(** The cache is unset and the next request brings a body that the JSON
    decoder turns into [data]. *)
Definition fetches (s : Http.Service) (t : Http.transport)
    (data : gmap string string) : Prop :=
  Http.spec s = None /\
  exists body, Http.outcomes t (Http.requests t) = (Some body, None) /\
    Http.decodeErr body = None /\ Http.Data (Http.decoded body) = data.

(** The three ways in which the request or the decoding fails, with the
    error that [Spec] makes of each. *)
Inductive fetchFails : option Http.reader * option Http.error -> Http.error -> Prop :=
| fails_request body e :
    fetchFails (body, Some e) (Http.Wrap e "failed to request spec")
| fails_nil_body :
    fetchFails (None, None) (Http.New "failed to obtain spec")
| fails_decode body e :
    Http.decodeErr body = Some e ->
    fetchFails (Some body, None) (Http.Wrap e "failed to parse spec").

(** The transport after one more request. *)
Definition requested (t : Http.transport) : Http.transport :=
  Http.mkTransport (Http.outcomes t) (S (Http.requests t)).

(** A key that none of the key tests of the loop body matches. *)
Definition plainKey (k : string) : Prop :=
  Strings.HasPrefix k "DOMAIN_" = false /\
  Strings.HasSuffix k "_FORK_VERSION" = false /\
  Strings.HasSuffix k "_TIME" = false /\
  Strings.HasPrefix k "SECONDS_PER_" = false /\
  String.eqb k "GENESIS_DELAY" = false.

(** A key that the test of the duration block matches. *)
Definition durationKey (k : string) : bool :=
  Strings.HasPrefix k "SECONDS_PER_" || String.eqb k "GENESIS_DELAY".

(** A stored value fits the Go type it is stored with: four bytes for a
    domain type or a version, bytes for a byte slice, for a time what
    [time.Unix] makes of a nonzero number of whole seconds within [int64]
    (a time whose [Unix] method gives that number back, without
    nanoseconds), an [int64] for a duration and a [uint64] for an
    integer. *)
Definition wellFormed (x : Http.specValue) : Prop :=
  match x with
  | Http.VDomainType d => length d = 4%nat /\ Forall is_byte d
  | Http.VVersion v => length v = 4%nat /\ Forall is_byte v
  | Http.VBytes b => Forall is_byte b
  | Http.VTime t =>
      exists n, - Int.two63 <= n < Int.two63 /\ n <> 0 /\
        t = Time.Unix n 0 /\ Time.unixSec t = n /\ Time.nsec t = 0
  | Http.VDuration d => - Int.two63 <= d < Int.two63
  | Http.VUint64 n => 0 <= n < Int.two64
  | Http.VString _ => True
  end.

(** The time [t] is the instant [n] seconds after the Unix epoch: its
    seconds since January 1 of year 1 are those of the epoch plus [n], and
    it has no nanoseconds within the second. *)
Definition secondsAfterEpoch (t : Time.Time) (n : Z) : Prop :=
  Time.sec t = Time.unixToInternal + n /\ Time.nsec t = 0.

(** The keys of the patch table. *)
Definition patchKeys : gset string := list_to_set Http.patches.*1.

(** Every call that has returned a configuration has returned the one in
    [s.spec]. *)
Definition returnsAgree (x : Http.system) : Prop :=
  forall i config, Http.calls x !! i = Some (Http.Returned (Some config, None)) ->
    Http.spec (Http.service x) = Some config.

(** The request fails, or brings no body, or a body that does not decode. *)
Definition badOutcome (o : option Http.reader * option Http.error) : Prop :=
  exists e, fetchFails o e.

(** The error that [Spec] returns on a bad outcome. *)
Definition failureOf (o : option Http.reader * option Http.error)
    : option Http.error :=
  match o with
  | (_, Some e) => Some (Http.Wrap e "failed to request spec")
  | (None, None) => Some (Http.New "failed to obtain spec")
  | (Some body, None) =>
      match Http.decodeErr body with
      | Some e => Some (Http.Wrap e "failed to parse spec")
      | None => None
      end
  end.

(** * Properties *)

(** ** The loop over the payload *)

Section Loop.
Import Http.

Lemma fold_rangeBody_lookup (entries : list (string * string))
    (config : gmap string specValue) (k : string) :
  NoDup entries.*1 ->
  fold_left rangeBody entries config !! k =
    match (list_to_map entries : gmap string string) !! k with
    | Some v => Some (decodeEntry k v)
    | None => config !! k
    end.
Proof.
  revert config.
  induction entries as [|[k' v'] entries IH]; intros config Hnd; simpl.
  - by rewrite lookup_empty.
  - apply NoDup_cons in Hnd as [Hnotin Hnd].
    rewrite IH by done. unfold rangeBody; simpl.
    destruct (decide (k' = k)) as [->|Hne].
    + rewrite lookup_insert_eq.
      rewrite (not_elem_of_list_to_map_1 entries k Hnotin).
      by rewrite lookup_insert_eq.
    + by rewrite !lookup_insert_ne.
Qed.

(** Whatever the order of the iteration, the loop stores for every key
    of the payload the value decoded from its entry, and nothing else. *)
Lemma decodeEntries_lookup (data : gmap string string)
    (entries : list (string * string)) (k : string) :
  entries ≡ₚ map_to_list data ->
  decodeEntries entries !! k = decodeEntry k <$> data !! k.
Proof.
  intros Hperm. unfold decodeEntries.
  assert (NoDup entries.*1) as Hnd.
  { rewrite Hperm. apply NoDup_fst_map_to_list. }
  rewrite fold_rangeBody_lookup by done.
  assert ((list_to_map entries : gmap string string) = data) as ->.
  { rewrite <- (list_to_map_to_list data).
    apply list_to_map_proper; [done|]. by rewrite Hperm. }
  destruct (data !! k); simpl; [done|apply lookup_empty].
Qed.

Lemma decodeEntries_order (data : gmap string string)
    (entries : list (string * string)) :
  entries ≡ₚ map_to_list data -> decodeEntries entries = decodeData data.
Proof.
  intros Hperm. apply map_eq; intros k. unfold decodeData.
  by rewrite !(decodeEntries_lookup data).
Qed.

Lemma decodeData_lookup (data : gmap string string) (k : string) :
  decodeData data !! k = decodeEntry k <$> data !! k.
Proof. by apply decodeEntries_lookup. Qed.

End Loop.

(** ** The patch step *)

Section Patch.
Import Http.

Lemma addIfMissing_lookup (k k' : string) (d : specValue)
    (config : gmap string specValue) :
  addIfMissing k d config !! k' =
    match config !! k' with
    | Some x => Some x
    | None => if decide (k = k') then Some d else None
    end.
Proof.
  unfold addIfMissing.
  destruct (config !! k) as [x|] eqn:Hk.
  - destruct (config !! k') as [x'|] eqn:Hk'; [done|].
    case_decide; [congruence|done].
  - rewrite lookup_insert. case_decide as Heq.
    + subst k'. by rewrite Hk.
    + by destruct (config !! k').
Qed.

Lemma fold_addIfMissing_lookup (ps : list (string * specValue))
    (config : gmap string specValue) (k : string) :
  fold_left (fun c p => addIfMissing p.1 p.2 c) ps config !! k =
    match config !! k with
    | Some x => Some x
    | None => (list_to_map ps : gmap string specValue) !! k
    end.
Proof.
  revert config. induction ps as [|[k' d'] ps IH]; intros config; simpl.
  - rewrite lookup_empty. by destruct (config !! k).
  - rewrite IH, addIfMissing_lookup. simpl.
    destruct (config !! k) as [x|]; [done|].
    rewrite lookup_insert. by case_decide.
Qed.

Lemma patch_lookup (config : gmap string specValue) (k : string) :
  patch config !! k =
    match config !! k with
    | Some x => Some x
    | None => (list_to_map patches : gmap string specValue) !! k
    end.
Proof. apply fold_addIfMissing_lookup. Qed.

Lemma patches_NoDup : NoDup patches.*1.
Proof. by apply (bool_decide_unpack _); vm_compute. Qed.

Lemma patches_default (k : string) (d : specValue) :
  (k, d) ∈ patches -> (list_to_map patches : gmap string specValue) !! k = Some d.
Proof. apply elem_of_list_to_map_1, patches_NoDup. Qed.

(** The configuration, key by key: the decoded entry of the payload
    where there is one, the patch default otherwise. *)
Lemma buildConfig_lookup (data : gmap string string) (k : string) :
  buildConfig data !! k =
    match data !! k with
    | Some v => Some (decodeEntry k v)
    | None => (list_to_map patches : gmap string specValue) !! k
    end.
Proof.
  unfold buildConfig. rewrite patch_lookup, decodeData_lookup.
  by destruct (data !! k).
Qed.

End Patch.

(** ** Hex decoding and the copy into a 4-byte array *)

Section Bytes.

Lemma reverseHexTable_range (c : ascii) :
  0 <= Hex.reverseHexTable c <= 15 \/ Hex.reverseHexTable c = 255.
Proof.
  unfold Hex.reverseHexTable.
  repeat (case_match; [left; lia|]). by right.
Qed.

Lemma nibbles_byte (a b : Z) :
  0 <= a <= 15 -> 0 <= b <= 15 -> is_byte (Z.lor (Z.shiftl a 4) b).
Proof.
  intros Ha Hb. unfold is_byte.
  assert (Z.lor (Z.shiftl a 4) b < 2 ^ 8) as Hlt.
  { destruct (Z.eq_dec (Z.lor (Z.shiftl a 4) b) 0) as [->|Hne]; [lia|].
    apply Z.log2_lt_pow2.
    - assert (0 <= Z.lor (Z.shiftl a 4) b); [|lia].
      apply Z.lor_nonneg. split; [apply Z.shiftl_nonneg|]; lia.
    - rewrite Z.log2_lor by (try apply Z.shiftl_nonneg; lia).
      apply Z.max_lub_lt.
      + destruct (Z.eq_dec a 0) as [->|Ha0]; [by rewrite Z.shiftl_0_l|].
        rewrite Z.log2_shiftl by lia.
        assert (Z.log2 a < 4); [|lia]. apply Z.log2_lt_pow2; lia.
      + destruct (Z.eq_dec b 0) as [->|Hb0]; [done|].
        assert (Z.log2 b < 4); [|lia]. apply Z.log2_lt_pow2; lia. }
  split; [|lia].
  apply Z.lor_nonneg. split; [apply Z.shiftl_nonneg|]; lia.
Qed.

(** Whatever [Decode] writes is a sequence of bytes. *)
Lemma Decode_bytes (src : string) :
  Forall is_byte (Hex.Decode src).1.
Proof.
  assert (forall n s, (String.length s <= n)%nat ->
            Forall is_byte (Hex.Decode s).1) as H.
  { induction n as [|n IH]; intros [|p [|q rest]] Hlen; simpl in *;
      try lia; try by constructor.
    - case_match; constructor.
    - destruct (reverseHexTable_range p) as [Hp|Hp];
        [|rewrite Hp; by simpl].
      destruct (reverseHexTable_range q) as [Hq|Hq];
        [|rewrite Hq; simpl; by case_match].
      repeat (case_match; simpl; [by constructor|]).
      specialize (IH rest ltac:(lia)).
      destruct (Hex.Decode rest) as [out err]; simpl in *.
      constructor; [by apply nibbles_byte|done]. }
  by apply (H (String.length src)).
Qed.

Lemma reverseHexTable_digit (c : ascii) :
  (Hex.reverseHexTable c >? 15) = negb (isHexDigit c).
Proof.
  unfold Hex.reverseHexTable, isHexDigit.
  generalize (Hex.code c). intros n.
  destruct (Z.leb_spec 48 n), (Z.leb_spec n 57), (Z.leb_spec 97 n),
    (Z.leb_spec n 102), (Z.leb_spec 65 n), (Z.leb_spec n 70);
    simpl; try lia; try reflexivity;
    rewrite Z.gtb_ltb; apply Z.ltb_ge; lia.
Qed.

(** [Decode] reports no error exactly for an even number of hexadecimal
    digits. *)
Lemma Decode_ok_iff (src : string) :
  (Hex.Decode src).2 = None <->
  Nat.even (String.length src) = true /\ allHexDigits src = true.
Proof.
  assert (forall n s, (String.length s <= n)%nat ->
            (Hex.Decode s).2 = None <->
            Nat.even (String.length s) = true /\ allHexDigits s = true) as H.
  { induction n as [|n IH]; intros [|p [|q rest]] Hlen;
      try (simpl in Hlen; lia); try done.
    - simpl. split; [|by intros [[=] _]]. by case_match.
    - change (Hex.Decode (String p (String q rest)))
        with (if Hex.reverseHexTable p >? 15
              then ([], Some (Hex.InvalidByteError p))
              else if Hex.reverseHexTable q >? 15
              then ([], Some (Hex.InvalidByteError q))
              else let '(out, err) := Hex.Decode rest in
                   (Z.lor (Z.shiftl (Hex.reverseHexTable p) 4)
                          (Hex.reverseHexTable q) :: out, err)).
      rewrite !reverseHexTable_digit.
      change (allHexDigits (String p (String q rest)))
        with (isHexDigit p && (isHexDigit q && allHexDigits rest)).
      change (Nat.even (String.length (String p (String q rest))))
        with (Nat.even (String.length rest)).
      destruct (isHexDigit p); simpl; [|by split; [|intros [_ [=]]]].
      destruct (isHexDigit q); simpl; [|by split; [|intros [_ [=]]]].
      specialize (IH rest ltac:(simpl in Hlen; lia)).
      by destruct (Hex.Decode rest) as [out err]. }
  by apply (H (String.length src)).
Qed.

Lemma copy_zero_length (src : list Z) :
  length (Phase0.copy Phase0.zero src) = 4%nat.
Proof. by destruct src as [|a [|b [|c [|d src]]]]. Qed.

(** The copy is left-aligned: byte [i] of the array is byte [i] of the
    source where the source has one, and zero otherwise. *)
Lemma copy_zero_lookup (src : list Z) (i : nat) :
  (i < 4)%nat ->
  Phase0.copy Phase0.zero src !! i = Some (default 0 (src !! i)).
Proof.
  intros Hi.
  destruct src as [|a [|b [|c [|d src]]]];
    by destruct i as [|[|[|[|i]]]]; try lia.
Qed.

Lemma copy_zero_long (src : list Z) :
  (4 <= length src)%nat -> Phase0.copy Phase0.zero src = take 4 src.
Proof.
  destruct src as [|a [|b [|c [|d src]]]]; simpl; try lia. done.
Qed.

Lemma copy_zero_short (src : list Z) :
  (length src < 4)%nat ->
  Phase0.copy Phase0.zero src = (src ++ replicate (4 - length src) 0)%list.
Proof.
  destruct src as [|a [|b [|c [|d src]]]]; simpl; try lia; done.
Qed.

Lemma copy_zero_bytes (src : list Z) :
  Forall is_byte src -> Forall is_byte (Phase0.copy Phase0.zero src).
Proof.
  intros Hsrc. unfold Phase0.copy. apply Forall_app. split.
  - by apply Forall_take.
  - apply Forall_drop. unfold Phase0.zero, is_byte.
    repeat constructor; lia.
Qed.

End Bytes.

(** ** A successful fetch *)

Section Fetch.
Import Http.

Lemma Spec_fetches (s : Service) (t : transport) (data : gmap string string) :
  fetches s t data ->
  Spec s t = ((Some (buildConfig data), None),
              mkService (Some (buildConfig data)),
              mkTransport (outcomes t) (S (requests t))).
Proof.
  intros [Hs (body & Hout & Herr & Hdata)].
  unfold Spec, lockedSpec, get. by rewrite Hs, Hout, Herr, Hdata.
Qed.

End Fetch.

(** ** The rules for domains and fork versions *)

Section FixedLength.
Import Http.

Lemma decodeEntry_domain (k v : string) (byteVal : list Z) :
  Strings.HasPrefix k "DOMAIN_" = true ->
  Hex.DecodeString (Strings.TrimPrefix v "0x") = (byteVal, None) ->
  firstMatch rules k v = Some (VDomainType (Phase0.copy Phase0.zero byteVal)).
Proof.
  intros Hk Hv. unfold rules, firstMatch, domainRule. by rewrite Hk, Hv.
Qed.

Lemma decodeEntry_version (k v : string) (byteVal : list Z) :
  Strings.HasPrefix k "DOMAIN_" = false ->
  Strings.HasSuffix k "_FORK_VERSION" = true ->
  Hex.DecodeString (Strings.TrimPrefix v "0x") = (byteVal, None) ->
  firstMatch rules k v = Some (VVersion (Phase0.copy Phase0.zero byteVal)).
Proof.
  intros Hd Hk Hv. unfold rules, firstMatch, domainRule, forkVersionRule.
  by rewrite Hd, Hk, Hv.
Qed.

Lemma DecodeString_bytes (s : string) (byteVal : list Z) (err : option Hex.error) :
  Hex.DecodeString s = (byteVal, err) -> Forall is_byte byteVal.
Proof.
  intros H. pose proof (Decode_bytes s) as Hb.
  unfold Hex.DecodeString in H. by rewrite H in Hb.
Qed.

End FixedLength.

(** C2: a key with the prefix "DOMAIN_" whose value, without an optional
    "0x", is valid hex is mapped by the decoded configuration to a domain
    type of exactly four bytes, the left-aligned copy of the decoded bytes
    (byte [i] of the value is decoded byte [i] where there is one and zero
    otherwise); the first rule settles the key, so it is neither an
    integer nor a string. *)
Theorem domain_key_is_domain_type (data : gmap string string) (k v : string)
    (byteVal : list Z) :
  data !! k = Some v ->
  Strings.HasPrefix k "DOMAIN_" = true ->
  Hex.DecodeString (Strings.TrimPrefix v "0x") = (byteVal, None) ->
  exists d : Phase0.DomainType,
    Http.buildConfig data !! k = Some (Http.VDomainType d) /\
    length d = 4%nat /\
    Forall is_byte d /\
    (forall i, (i < 4)%nat -> d !! i = Some (default 0 (byteVal !! i))) /\
    Http.firstMatch Http.rules k v = Http.domainRule k v /\
    (forall n, Http.buildConfig data !! k <> Some (Http.VUint64 n)) /\
    (forall s, Http.buildConfig data !! k <> Some (Http.VString s)).
Proof.
  intros Hdata Hk Hv.
  exists (Phase0.copy Phase0.zero byteVal).
  assert (Http.buildConfig data !! k =
          Some (Http.VDomainType (Phase0.copy Phase0.zero byteVal))) as Hcfg.
  { rewrite buildConfig_lookup, Hdata. unfold Http.decodeEntry.
    by rewrite (decodeEntry_domain k v byteVal). }
  repeat split.
  - done.
  - apply copy_zero_length.
  - eapply copy_zero_bytes, DecodeString_bytes, Hv.
  - apply copy_zero_lookup.
  - rewrite (decodeEntry_domain k v byteVal) by done.
    unfold Http.domainRule. by rewrite Hk, Hv.
  - intros n. by rewrite Hcfg.
  - intros s. by rewrite Hcfg.
Qed.

Lemma domain_key_is_domain_type_witness :
  exists d : Phase0.DomainType,
    Http.buildConfig {[ "DOMAIN_DEPOSIT" := "0x03000000" ]} !! "DOMAIN_DEPOSIT"
      = Some (Http.VDomainType d) /\
    length d = 4%nat /\
    Forall is_byte d /\
    (forall i, (i < 4)%nat -> d !! i = Some (default 0 ([3; 0; 0; 0] !! i))) /\
    Http.firstMatch Http.rules "DOMAIN_DEPOSIT" "0x03000000"
      = Http.domainRule "DOMAIN_DEPOSIT" "0x03000000" /\
    (forall n, Http.buildConfig {[ "DOMAIN_DEPOSIT" := "0x03000000" ]}
                 !! "DOMAIN_DEPOSIT" <> Some (Http.VUint64 n)) /\
    (forall s, Http.buildConfig {[ "DOMAIN_DEPOSIT" := "0x03000000" ]}
                 !! "DOMAIN_DEPOSIT" <> Some (Http.VString s)).
Proof.
  apply (domain_key_is_domain_type
           {[ "DOMAIN_DEPOSIT" := "0x03000000" ]} "DOMAIN_DEPOSIT" "0x03000000"
           [3; 0; 0; 0]); reflexivity.
Defined.

(** C10: for a key that the domain rule or the fork-version rule matches,
    a hex value of more than four bytes is cut to its first four bytes, and
    one of fewer than four bytes is filled up with zero bytes; the fetch
    that brought the payload returns the configuration and no error. *)
Theorem fixed_length_truncates_and_pads (data : gmap string string)
    (k v : string) (byteVal : list Z) :
  data !! k = Some v ->
  Strings.HasPrefix k "DOMAIN_" = true \/
    Strings.HasSuffix k "_FORK_VERSION" = true ->
  Hex.DecodeString (Strings.TrimPrefix v "0x") = (byteVal, None) ->
  exists a : list Z,
    Http.buildConfig data !! k =
      Some (if Strings.HasPrefix k "DOMAIN_" then Http.VDomainType a
            else Http.VVersion a) /\
    length a = 4%nat /\
    ((4 < length byteVal)%nat -> a = take 4 byteVal) /\
    ((length byteVal < 4)%nat ->
       a = (byteVal ++ replicate (4 - length byteVal) 0)%list) /\
    (forall s t, fetches s t data ->
       (Http.Spec s t).1.1 = (Some (Http.buildConfig data), None)).
Proof.
  intros Hdata Hk Hv.
  exists (Phase0.copy Phase0.zero byteVal). repeat split.
  - rewrite buildConfig_lookup, Hdata. unfold Http.decodeEntry.
    destruct (Strings.HasPrefix k "DOMAIN_") eqn:Hd.
    + by rewrite (decodeEntry_domain k v byteVal).
    + destruct Hk as [Hk|Hk]; [done|].
      by rewrite (decodeEntry_version k v byteVal).
  - apply copy_zero_length.
  - intros Hlen. apply copy_zero_long. lia.
  - apply copy_zero_short.
  - intros s t Hf. by rewrite (Spec_fetches s t data).
Qed.

Lemma fixed_length_truncates_and_pads_witness :
  exists a : list Z,
    Http.buildConfig {[ "GENESIS_FORK_VERSION" := "0x0102030405" ]}
      !! "GENESIS_FORK_VERSION" = Some (Http.VVersion a) /\
    a = [1; 2; 3; 4].
Proof.
  destruct (fixed_length_truncates_and_pads
              {[ "GENESIS_FORK_VERSION" := "0x0102030405" ]}
              "GENESIS_FORK_VERSION" "0x0102030405" [1; 2; 3; 4; 5])
    as (a & Hcfg & _ & Hlong & _);
    [reflexivity | right; reflexivity | reflexivity |].
  exists a. split; [exact Hcfg|]. apply Hlong. simpl. lia.
Defined.

(** C3: for each of the five patch defaults (the three sync-committee
    domain types and the two sync-committee integers), the default is what
    the configuration holds when the payload lacks the key; a key of the
    payload keeps the value decoded from its entry; so the patch step
    changes the key exactly when the payload lacks it, and it never
    overwrites a key that is already there. *)
Theorem patch_default_iff_absent (data : gmap string string) (k : string)
    (d : Http.specValue) :
  (k, d) ∈ Http.patches ->
  (data !! k = None -> Http.buildConfig data !! k = Some d) /\
  (forall v, data !! k = Some v ->
     Http.buildConfig data !! k = Some (Http.decodeEntry k v)) /\
  (Http.buildConfig data !! k <> Http.decodeData data !! k <-> data !! k = None) /\
  (forall config x, config !! k = Some x -> Http.patch config !! k = Some x).
Proof.
  intros Hin. pose proof (patches_default k d Hin) as Hd.
  repeat split.
  - intros Hk. by rewrite buildConfig_lookup, Hk.
  - intros v Hk. by rewrite buildConfig_lookup, Hk.
  - rewrite buildConfig_lookup, decodeData_lookup.
    destruct (data !! k); simpl; [congruence|done].
  - intros Hk. rewrite buildConfig_lookup, decodeData_lookup, Hk, Hd. done.
  - intros config x Hk. by rewrite patch_lookup, Hk.
Qed.

Lemma patch_default_iff_absent_witness :
  Http.buildConfig {[ "SYNC_COMMITTEE_SUBNET_COUNT" := "8" ]}
    !! "SYNC_COMMITTEE_SUBNET_COUNT" = Some (Http.VUint64 8) /\
  Http.buildConfig {[ "SYNC_COMMITTEE_SUBNET_COUNT" := "8" ]}
    !! "TARGET_AGGREGATORS_PER_SYNC_SUBCOMMITTEE" = Some (Http.VUint64 16).
Proof.
  destruct (patch_default_iff_absent
              {[ "SYNC_COMMITTEE_SUBNET_COUNT" := "8" ]}
              "SYNC_COMMITTEE_SUBNET_COUNT" (Http.VUint64 4))
    as (_ & Hkeep & _); [unfold Http.patches; repeat constructor|].
  destruct (patch_default_iff_absent
              {[ "SYNC_COMMITTEE_SUBNET_COUNT" := "8" ]}
              "TARGET_AGGREGATORS_PER_SYNC_SUBCOMMITTEE" (Http.VUint64 16))
    as (Hdefault & _); [unfold Http.patches; repeat constructor|].
  split.
  - apply (Hkeep "8"). reflexivity.
  - apply Hdefault. reflexivity.
Defined.

(** C5: decoding is total key by key.  Every key of the payload is in the
    decoded configuration with exactly one value, the one the loop body
    computes for its entry; when none of the rules stores a value, that
    value is the raw string; and a fetch whose body decodes as JSON returns
    the configuration and no error, whatever the entries are. *)
Theorem per_key_decoding_total (data : gmap string string) (k v : string) :
  data !! k = Some v ->
  (exists! x, Http.buildConfig data !! k = Some x) /\
  Http.buildConfig data !! k = Some (Http.decodeEntry k v) /\
  (Http.firstMatch Http.rules k v = None ->
     Http.buildConfig data !! k = Some (Http.VString v)) /\
  (forall s t, fetches s t data ->
     (Http.Spec s t).1.1 = (Some (Http.buildConfig data), None)).
Proof.
  intros Hk.
  assert (Http.buildConfig data !! k = Some (Http.decodeEntry k v)) as Hcfg.
  { by rewrite buildConfig_lookup, Hk. }
  repeat split.
  - exists (Http.decodeEntry k v). split; [done|]. intros x Hx. congruence.
  - done.
  - intros Hnone. rewrite Hcfg. unfold Http.decodeEntry. by rewrite Hnone.
  - intros s t Hf. by rewrite (Spec_fetches s t data).
Qed.

Lemma per_key_decoding_total_witness :
  Http.buildConfig {[ "CONFIG_NAME" := "mainnet"; "DEPOSIT_CHAIN_ID" := "1" ]}
    !! "CONFIG_NAME" = Some (Http.VString "mainnet").
Proof.
  destruct (per_key_decoding_total
              {[ "CONFIG_NAME" := "mainnet"; "DEPOSIT_CHAIN_ID" := "1" ]}
              "CONFIG_NAME" "mainnet") as (_ & _ & Hstr & _);
    [reflexivity|].
  apply Hstr. reflexivity.
Defined.

(** ** Decimal numerals and [strconv] *)

Section Decimal.

Lemma decimalValue_ge (s : string) (acc : Z) :
  allDigits s = true -> 0 <= acc -> acc <= decimalValue s acc.
Proof.
  revert acc. induction s as [|c rest IH]; intros acc Hall Hacc; simpl in *.
  - lia.
  - apply andb_true_iff in Hall as [Hc Hrest]. unfold isDigit in Hc.
    apply andb_true_iff in Hc as [?%Z.leb_le ?%Z.leb_le].
    specialize (IH (acc * 10 + (Hex.code c - 48)) Hrest). lia.
Qed.

(** The digit loop returns without error exactly on digits whose number
    fits 64 bits, and then returns that number. *)
Lemma digits_ok_iff (s : string) (n v : Z) :
  0 <= n < Int.two64 ->
  Strconv.digits s n = (v, None) <->
  allDigits s = true /\ v = decimalValue s n /\ v < Int.two64.
Proof.
  revert n v. induction s as [|c rest IH]; intros n v Hn.
  - simpl. split.
    + intros [= <-]. repeat split; lia.
    + by intros (_ & -> & _).
  - change (allDigits (String c rest)) with (isDigit c && allDigits rest).
    change (decimalValue (String c rest) n)
      with (decimalValue rest (n * 10 + (Hex.code c - 48))).
    change (Strconv.digits (String c rest) n) with
      (if isDigit c then
         if n >=? Strconv.cutoff then (Strconv.maxVal, Some Strconv.ErrRange)
         else
           if (Int.to_uint64 (Int.to_uint64 (n * 10) + (Hex.code c - 48))
                 <? Int.to_uint64 (n * 10))
              || (Int.to_uint64 (Int.to_uint64 (n * 10) + (Hex.code c - 48))
                    >? Strconv.maxVal)
           then (Strconv.maxVal, Some Strconv.ErrRange)
           else Strconv.digits rest
                  (Int.to_uint64 (Int.to_uint64 (n * 10) + (Hex.code c - 48)))
       else (0, Some Strconv.ErrSyntax)).
    destruct (isDigit c) eqn:Hc; simpl; [|by split; [|intros [[=] _]]].
    unfold isDigit in Hc.
    apply andb_true_iff in Hc as [Hc1%Z.leb_le Hc2%Z.leb_le].
    set (d := Hex.code c - 48) in *.
    assert (Strconv.cutoff = 1844674407370955162) as Hcut by reflexivity.
    assert (Strconv.maxVal = 18446744073709551615) as Hmax by reflexivity.
    assert (Int.two64 = 18446744073709551616) as H64 by reflexivity.
    destruct (Z.geb_spec n Strconv.cutoff) as [Hge|Hlt].
    { split; [by intros [=]|]. intros (Hall & -> & Hv). exfalso.
      pose proof (decimalValue_ge rest (n * 10 + d) Hall). lia. }
    assert (Int.to_uint64 (n * 10) = n * 10) as ->.
    { unfold Int.to_uint64. apply Z.mod_small. lia. }
    destruct (Z_lt_ge_dec (n * 10 + d) Int.two64) as [Hfit|Hover].
    + assert (Int.to_uint64 (n * 10 + d) = n * 10 + d) as ->.
      { unfold Int.to_uint64. apply Z.mod_small. lia. }
      destruct (Z.ltb_spec (n * 10 + d) (n * 10)); [lia|].
      rewrite Z.gtb_ltb.
      destruct (Z.ltb_spec Strconv.maxVal (n * 10 + d)); [lia|]. simpl.
      apply IH. lia.
    + assert (Int.to_uint64 (n * 10 + d) = n * 10 + d - Int.two64) as ->.
      { unfold Int.to_uint64. symmetry.
        apply (Z.mod_unique_pos _ _ 1); lia. }
      destruct (Z.ltb_spec (n * 10 + d - Int.two64) (n * 10)); [|lia]. simpl.
      split; [by intros [=]|]. intros (Hall & -> & Hv). exfalso.
      pose proof (decimalValue_ge rest (n * 10 + d) Hall). lia.
Qed.

(** [ParseUint] accepts exactly the numerals of the numbers below 2^64. *)
Lemma ParseUint_ok_iff (s : string) (v : Z) :
  Strconv.ParseUint s = (v, None) <->
  unsignedDecimal s = Some v /\ v < Int.two64.
Proof.
  destruct s as [|c rest]; [by split; [|intros [[=] _]]|].
  unfold Strconv.ParseUint, unsignedDecimal.
  rewrite digits_ok_iff by (by vm_compute).
  destruct (allDigits (String c rest)).
  - split.
    + by intros (_ & -> & ?).
    + by intros [[= <-] ?].
  - split; [by intros [[=] _]|by intros [[=] _]].
Qed.

Lemma unsignedDecimal_nonneg (s : string) (v : Z) :
  unsignedDecimal s = Some v -> 0 <= v.
Proof.
  destruct s as [|c rest]; [done|]. unfold unsignedDecimal.
  destruct (allDigits (String c rest)) eqn:Hall; [|done].
  intros [= <-]. by apply (decimalValue_ge (String c rest) 0).
Qed.

Lemma digits_range_error (s : string) (n v : Z) :
  Strconv.digits s n = (v, Some Strconv.ErrRange) -> v = Strconv.maxVal.
Proof.
  revert n. induction s as [|c rest IH]; intros n; simpl; [by intros [=]|].
  repeat case_match; try by intros [=]. apply IH.
Qed.

Lemma to_int64_small (z : Z) :
  - Int.two63 <= z < Int.two63 -> Int.to_int64 z = z.
Proof.
  intros Hz. unfold Int.to_int64.
  assert (Int.two63 = 9223372036854775808) as H63 by reflexivity.
  assert (Int.two64 = 18446744073709551616) as H64 by reflexivity.
  rewrite Z.mod_small; lia.
Qed.

(** After the sign, [ParseInt] goes on as follows with what [ParseUint]
    made of the digits. *)
Lemma ParseInt_signed (neg : bool) (body : string) (n : Z) :
  match Strconv.ParseUint body with
  | (_, Some Strconv.ErrSyntax) => (0, Some Strconv.ErrSyntax)
  | (un, _) =>
      if negb neg && (un >=? Int.two63) then (Int.two63 - 1, Some Strconv.ErrRange)
      else if neg && (un >? Int.two63) then (- Int.two63, Some Strconv.ErrRange)
      else (if neg then Int.to_int64 (- Int.to_int64 un) else Int.to_int64 un, None)
  end = (n, None) <->
  (if neg then Z.opp <$> unsignedDecimal body else unsignedDecimal body) = Some n
  /\ - Int.two63 <= n < Int.two63.
Proof.
  assert (Int.two63 = 9223372036854775808) as H63 by reflexivity.
  assert (Int.two64 = 18446744073709551616) as H64 by reflexivity.
  assert (Strconv.maxVal = 18446744073709551615) as Hmax by reflexivity.
  destruct (Strconv.ParseUint body) as [un [[]|]] eqn:Hu.
  - (* syntax error *)
    split; [by intros [=]|]. intros [Hd Hn]. exfalso.
    destruct (unsignedDecimal body) as [m|] eqn:Hm; [|by destruct neg].
    pose proof (unsignedDecimal_nonneg body m Hm) as Hm0.
    assert (m < Int.two64) as Hlt.
    { destruct neg; simpl in Hd; injection Hd as <-; lia. }
    pose proof (proj2 (ParseUint_ok_iff body m) (conj Hm Hlt)). congruence.
  - (* range error *)
    assert (un = Strconv.maxVal) as ->.
    { destruct body as [|c rest]; [by injection Hu|].
      by apply (digits_range_error (String c rest) 0). }
    split.
    + rewrite Hmax, H63. by destruct neg.
    + intros [Hd Hn]. exfalso.
      destruct (unsignedDecimal body) as [m|] eqn:Hm; [|by destruct neg].
      pose proof (unsignedDecimal_nonneg body m Hm) as Hm0.
      assert (m < Int.two64) as Hlt.
      { destruct neg; simpl in Hd; injection Hd as <-; lia. }
      pose proof (proj2 (ParseUint_ok_iff body m) (conj Hm Hlt)). congruence.
  - (* a number below 2^64 *)
    apply ParseUint_ok_iff in Hu as [Hu Hlt]. rewrite Hu.
    pose proof (unsignedDecimal_nonneg body un Hu) as Hun.
    destruct neg; simpl.
    + rewrite Z.gtb_ltb. destruct (Z.ltb_spec Int.two63 un) as [Hbig|Hok].
      * split; [by intros [=]|]. intros [[= <-] ?]. lia.
      * assert (Int.to_int64 (- Int.to_int64 un) = - un) as ->.
        { destruct (Z.eq_dec un Int.two63) as [->|Hne]; [by vm_compute|].
          rewrite (to_int64_small un) by lia. apply to_int64_small. lia. }
        split.
        -- intros [= <-]. split; [done|lia].
        -- by intros [[= <-] _].
    + destruct (Z.geb_spec un Int.two63) as [Hbig|Hok].
      * split; [by intros [=]|]. intros [[= <-] ?]. lia.
      * rewrite to_int64_small by lia. split.
        -- intros [= <-]. split; [done|lia].
        -- by intros [[= <-] _].
Qed.

(** [ParseInt] accepts exactly the optionally signed numerals of the
    integers of the signed 64-bit range, and returns the integer. *)
Lemma ParseInt_ok_iff (s : string) (n : Z) :
  Strconv.ParseInt s = (n, None) <->
  signedDecimal s = Some n /\ - Int.two63 <= n < Int.two63.
Proof.
  destruct s as [|c rest]; [by split; [|intros [[=] _]]|].
  unfold Strconv.ParseInt, signedDecimal.
  destruct (Ascii.eqb c "+"); [apply (ParseInt_signed false)|].
  destruct (Ascii.eqb c "-"); [apply (ParseInt_signed true)|].
  apply (ParseInt_signed false).
Qed.

End Decimal.

(** ** Keys with the suffix "_TIME" *)

Section TimeKeys.
Import Http.

Lemma HasSuffix_get (s suffix : string) (p : nat) :
  Strings.HasSuffix s suffix = true ->
  (p < String.length suffix)%nat ->
  (String.length suffix <= String.length s)%nat /\
  String.get p suffix =
    String.get (p + (String.length s - String.length suffix)) s.
Proof.
  unfold Strings.HasSuffix, Strings.from. intros H Hp.
  apply andb_true_iff in H as [Hlen Heq].
  apply Nat.leb_le in Hlen. apply String.eqb_eq in Heq.
  split; [done|].
  rewrite <- Heq at 1. apply substring_correct1. lia.
Qed.

(** A key cannot end in "_TIME" and in "_FORK_VERSION": the last
    characters differ. *)
Lemma TIME_not_FORK_VERSION (k : string) :
  Strings.HasSuffix k "_TIME" = true ->
  Strings.HasSuffix k "_FORK_VERSION" = false.
Proof.
  intros Ht. destruct (Strings.HasSuffix k "_FORK_VERSION") eqn:Hf; [|done].
  destruct (HasSuffix_get k "_TIME" 4 Ht) as [_ Hlast]; [simpl; lia|].
  destruct (HasSuffix_get k "_FORK_VERSION" 12 Hf) as [Hlen Hlast'];
    [simpl; lia|].
  change (String.length "_FORK_VERSION") with 13%nat in Hlen, Hlast'.
  change (String.length "_TIME") with 5%nat in Hlast.
  replace (12 + (String.length k - 13))%nat
    with (4 + (String.length k - 5))%nat in Hlast' by lia.
  rewrite <- Hlast in Hlast'. discriminate Hlast'.
Qed.

(** The value "0" is the integer zero under every key. *)
Lemma decodeEntry_zero (k : string) : decodeEntry k "0" = VUint64 0.
Proof.
  unfold decodeEntry, rules, firstMatch, domainRule, forkVersionRule,
    hexRule, timeRule, durationRule.
  destruct (Strings.HasPrefix k "DOMAIN_"),
    (Strings.HasSuffix k "_FORK_VERSION"), (Strings.HasSuffix k "_TIME"),
    (Strings.HasPrefix k "SECONDS_PER_" || String.eqb k "GENESIS_DELAY");
    reflexivity.
Qed.

Lemma firstMatch_time (k v : string) (n : Z) :
  Strings.HasSuffix k "_TIME" = true ->
  Strings.HasPrefix v "0x" = false ->
  domainRule k v = None ->
  Strconv.ParseInt v = (n, None) ->
  n <> 0 ->
  firstMatch rules k v = Some (VTime (Time.Unix n 0)).
Proof.
  intros Hk Hv Hd Hn Hn0.
  unfold rules, firstMatch. rewrite Hd.
  unfold forkVersionRule. rewrite (TIME_not_FORK_VERSION k Hk).
  unfold hexRule. rewrite Hv.
  unfold timeRule. rewrite Hk, Hn.
  by destruct (Z.eqb_spec n 0).
Qed.

(** The same in terms of numerals: the value is the numeral, with or
    without sign, of a nonzero integer of the signed 64-bit range. *)
Lemma firstMatch_time_decimal (k v : string) (n : Z) :
  Strings.HasSuffix k "_TIME" = true ->
  Strings.HasPrefix v "0x" = false ->
  domainRule k v = None ->
  signedDecimal v = Some n ->
  - Int.two63 <= n < Int.two63 ->
  n <> 0 ->
  firstMatch rules k v = Some (VTime (Time.Unix n 0)).
Proof.
  intros Hk Hv Hd Hn Hrange Hn0.
  apply (firstMatch_time k v n); try done.
  by apply ParseInt_ok_iff.
Qed.

(** [time.Unix] of whole seconds: no nanoseconds, the seconds moved to
    the internal origin in an [int64]. *)
Lemma Unix_whole (n : Z) :
  Time.Unix n 0 =
    Time.mkTime 0 (Int.to_int64 (n + Time.unixToInternal)) Time.Local.
Proof. reflexivity. Qed.

Lemma Unix_whole_sec (n : Z) :
  Time.sec (Time.Unix n 0) = Int.to_int64 (n + Time.unixToInternal).
Proof. by rewrite Unix_whole. Qed.

Lemma Unix_whole_nsec (n : Z) : Time.nsec (Time.Unix n 0) = 0.
Proof. by rewrite Unix_whole. Qed.

(** The [Unix] method gives back the seconds that [time.Unix] was given:
    the two moves of the origin cancel, wrap or no wrap. *)
Lemma unixSec_Unix (n : Z) :
  - Int.two63 <= n < Int.two63 -> Time.unixSec (Time.Unix n 0) = n.
Proof.
  intros Hn. unfold Time.unixSec. rewrite Unix_whole_sec.
  unfold Time.internalToUnix, Int.to_int64.
  replace ((n + Time.unixToInternal + Int.two63) mod Int.two64 - Int.two63
           + - Time.unixToInternal + Int.two63)
    with ((n + Time.unixToInternal + Int.two63) mod Int.two64
          - Time.unixToInternal) by lia.
  rewrite Zminus_mod_idemp_l.
  replace (n + Time.unixToInternal + Int.two63 - Time.unixToInternal)
    with (n + Int.two63) by lia.
  assert (Int.two63 = 9223372036854775808) as H63 by reflexivity.
  assert (Int.two64 = 18446744073709551616) as H64 by reflexivity.
  rewrite Z.mod_small; lia.
Qed.

(** Up to 9223371974719179007 seconds the internal seconds do not wrap,
    and the time is the instant that many seconds after the epoch. *)
Lemma secondsAfterEpoch_Unix (n : Z) :
  - Int.two63 <= n ->
  n + Time.unixToInternal < Int.two63 ->
  secondsAfterEpoch (Time.Unix n 0) n.
Proof.
  intros Hlo Hhi. split; [|apply Unix_whole_nsec].
  rewrite Unix_whole_sec.
  assert (Time.unixToInternal = 62135596800) as Hc by reflexivity.
  rewrite to_int64_small; lia.
Qed.

(** The value "100" has an odd number of characters, so the domain rule
    leaves it alone. *)
Lemma domainRule_100 (k : string) : domainRule k "100" = None.
Proof. unfold domainRule. by destruct (Strings.HasPrefix k "DOMAIN_"). Qed.

End TimeKeys.

(** C4, as amended: under a key with the suffix "_TIME" and a value that
    does not begin with "0x", the value "0" is the unsigned integer 0, the
    value "100" is the time point 100 seconds after the epoch, and any
    value that parses as a nonzero signed 64-bit decimal [n] is stored as
    [time.Unix(n, 0)], provided the domain rule, which comes first, does
    not take the entry (the key does not begin with "DOMAIN_", or the
    value is not valid hex).  The [Unix] method of that time gives [n]
    back; the time is the instant [n] seconds after the epoch for every
    [n] up to 9223371974719179007, beyond which the seconds that Go keeps
    in the time (counted from year 1) wrap. *)
Theorem time_key_decoding (data : gmap string string) (k v : string) :
  data !! k = Some v ->
  Strings.HasSuffix k "_TIME" = true ->
  Strings.HasPrefix v "0x" = false ->
  (v = "0" -> Http.buildConfig data !! k = Some (Http.VUint64 0)) /\
  (v = "100" ->
     Http.buildConfig data !! k = Some (Http.VTime (Time.Unix 100 0)) /\
     secondsAfterEpoch (Time.Unix 100 0) 100) /\
  (forall n,
     Strconv.ParseInt v = (n, None) ->
     n <> 0 ->
     Strings.HasPrefix k "DOMAIN_" = false \/
       (Hex.DecodeString (Strings.TrimPrefix v "0x")).2 <> None ->
     Http.buildConfig data !! k = Some (Http.VTime (Time.Unix n 0)) /\
     Time.unixSec (Time.Unix n 0) = n /\
     (n + Time.unixToInternal < Int.two63 ->
      secondsAfterEpoch (Time.Unix n 0) n)).
Proof.
  intros Hdata Hk Hv. rewrite buildConfig_lookup, Hdata.
  split; [|split].
  - intros ->. by rewrite decodeEntry_zero.
  - intros ->. unfold Http.decodeEntry.
    assert (100 <> 0) as H100 by lia.
    rewrite (firstMatch_time k "100" 100 Hk Hv (domainRule_100 k) eq_refl H100).
    split; [reflexivity|]. apply secondsAfterEpoch_Unix; by vm_compute.
  - intros n Hn Hn0 Hdomain.
    pose proof (proj1 (ParseInt_ok_iff v n) Hn) as [_ Hrange].
    split; [|split].
    + unfold Http.decodeEntry. rewrite (firstMatch_time k v n); try done.
      unfold Http.domainRule.
      destruct (Strings.HasPrefix k "DOMAIN_"); [|done].
      destruct (Hex.DecodeString (Strings.TrimPrefix v "0x")) as [bs [e|]];
        [done|].
      simpl in Hdomain. by destruct Hdomain.
    + by apply unixSec_Unix.
    + intros Hfit. apply secondsAfterEpoch_Unix; [lia|done].
Qed.

Lemma time_key_decoding_witness :
  Http.buildConfig {[ "MIN_GENESIS_TIME" := "1606824000" ]} !! "MIN_GENESIS_TIME"
    = Some (Http.VTime (Time.Unix 1606824000 0)) /\
  secondsAfterEpoch (Time.Unix 1606824000 0) 1606824000.
Proof.
  destruct (time_key_decoding
              {[ "MIN_GENESIS_TIME" := "1606824000" ]}
              "MIN_GENESIS_TIME" "1606824000") as (_ & _ & Hn);
    [reflexivity | reflexivity | reflexivity |].
  destruct (Hn 1606824000) as (Hcfg & _ & Hinstant);
    [reflexivity | lia | left; reflexivity |].
  split; [exact Hcfg|]. apply Hinstant. reflexivity.
Defined.

(** C4 as the claim states it fails: the key "DOMAIN_TIME" has the suffix
    "_TIME", and its value "10" does not begin with "0x" and is the
    nonzero decimal 10; but "10" is also valid hex, and the domain rule
    comes first: the entry is the domain type [0x10, 0, 0, 0], not the
    time point 10 seconds after the epoch. *)
Lemma time_key_with_domain_prefix :
  ~ (forall (data : gmap string string) (k v : string) (n : Z),
       data !! k = Some v ->
       Strings.HasSuffix k "_TIME" = true ->
       Strings.HasPrefix v "0x" = false ->
       Strconv.ParseInt v = (n, None) ->
       n <> 0 ->
       Http.buildConfig data !! k = Some (Http.VTime (Time.Unix n 0))).
Proof.
  intros H.
  specialize (H {[ "DOMAIN_TIME" := "10" ]} "DOMAIN_TIME" "10" 10
                eq_refl eq_refl eq_refl eq_refl ltac:(lia)).
  vm_compute in H. discriminate H.
Qed.

(** A numeral beyond the signed 64-bit range is no time either: the
    time rule's [ParseInt] fails and the integer rule takes it. *)
Example MIN_GENESIS_TIME_out_of_range :
  Http.buildConfig {[ "MIN_GENESIS_TIME" := "9223372036854775808" ]}
    !! "MIN_GENESIS_TIME" = Some (Http.VUint64 9223372036854775808).
Proof. reflexivity. Qed.

(** The largest [int64] is stored as a time, but not as the instant that
    many seconds after the epoch: the seconds that the time keeps have
    wrapped to a negative number. *)
Example MIN_GENESIS_TIME_wraps :
  Http.buildConfig {[ "MIN_GENESIS_TIME" := "9223372036854775807" ]}
    !! "MIN_GENESIS_TIME"
    = Some (Http.VTime (Time.Unix 9223372036854775807 0)) /\
  Time.sec (Time.Unix 9223372036854775807 0) = -9223371974719179009 /\
  ~ secondsAfterEpoch (Time.Unix 9223372036854775807 0) 9223372036854775807.
Proof.
  split; [reflexivity|]. split; [reflexivity|].
  intros [Hsec _]. vm_compute in Hsec. discriminate Hsec.
Qed.

Example DOMAIN_TIME_10 :
  Http.buildConfig {[ "DOMAIN_TIME" := "10" ]} !! "DOMAIN_TIME"
    = Some (Http.VDomainType [16; 0; 0; 0]).
Proof. reflexivity. Qed.

(** ** The cache *)

Section Cache.
Import Http.

Lemma lockedSpec_cached (s : Service) (t : transport)
    (config : gmap string specValue) :
  spec s = Some config -> lockedSpec s t = ((Some config, None), s, t).
Proof. intros Hs. unfold lockedSpec. by rewrite Hs. Qed.

Lemma Spec_cached (s : Service) (t : transport)
    (config : gmap string specValue) :
  spec s = Some config -> Spec s t = ((Some config, None), s, t).
Proof. intros Hs. unfold Spec. by rewrite Hs. Qed.

(** [Spec] is its locked part: the test before the lock changes nothing
    when no other call runs in between. *)
Lemma Spec_lockedSpec (s : Service) (t : transport) :
  Spec s t = lockedSpec s t.
Proof. unfold Spec, lockedSpec. by destruct (spec s). Qed.

(** A call that returns a configuration leaves it in [s.spec]. *)
Lemma lockedSpec_stores (s s' : Service) (t t' : transport)
    (config : gmap string specValue) (err : option error) :
  lockedSpec s t = ((Some config, err), s', t') -> spec s' = Some config.
Proof.
  unfold lockedSpec, get. destruct (spec s) as [c|] eqn:Hs.
  - intros [= -> _ <- _]. done.
  - destruct (outcomes t (requests t)) as [[body|] [e|]]; try by intros [=].
    destruct (decodeErr body); [by intros [=]|].
    by intros [= <- _ <- _].
Qed.

Lemma SpecCalls_cached (n : nat) (s : Service) (t : transport)
    (config : gmap string specValue) :
  spec s = Some config ->
  SpecCalls n s t = (replicate n (Some config, None), s, t).
Proof.
  intros Hs. induction n as [|n IH]; simpl; [done|].
  by rewrite (Spec_cached s t config Hs), IH.
Qed.

(** With the cache set, no step of any goroutine changes the service or
    makes a request, and a call that returns in that step returns the
    cached value. *)
Lemma step_cached_stable (x y : system) (config : gmap string specValue) :
  step x y ->
  spec (service x) = Some config ->
  service y = service x /\ network y = network x /\
  forall i r, calls y !! i = Some (Returned r) ->
    calls x !! i = Some (Returned r) \/ r = (Some config, None).
Proof.
  intros Hstep Hs.
  destruct Hstep as [s t cs j c Hj Hc|s t cs j Hj Hc|s t cs j r s' t' Hj Hr|s t cs];
    simpl in *.
  - repeat split; try done. intros i r Hi.
    destruct (decide (i = j)) as [->|Hne].
    + rewrite list_lookup_insert_eq in Hi by (by eapply lookup_lt_Some).
      right. congruence.
    + left. by rewrite list_lookup_insert_ne in Hi.
  - congruence.
  - rewrite (lockedSpec_cached s t config Hs) in Hr.
    injection Hr as <- <- <-.
    repeat split; try done. intros i r Hi.
    destruct (decide (i = j)) as [->|Hne].
    + rewrite list_lookup_insert_eq in Hi by (by eapply lookup_lt_Some).
      right. congruence.
    + left. by rewrite list_lookup_insert_ne in Hi.
  - repeat split; try done. intros i r Hi. left.
    apply lookup_app_Some in Hi as [Hi|[_ Hi]]; [done|].
    by destruct (i - length cs)%nat as [|[|?]].
Qed.

Lemma steps_cached_stable (x y : system) (config : gmap string specValue) :
  steps x y ->
  spec (service x) = Some config ->
  service y = service x /\ network y = network x /\
  forall i r, calls y !! i = Some (Returned r) ->
    calls x !! i = Some (Returned r) \/ r = (Some config, None).
Proof.
  intros Hsteps. induction Hsteps as [x|x y z Hstep Hsteps IH]; intros Hs.
  - repeat split; auto.
  - destruct (step_cached_stable x y config Hstep Hs) as (Hsv & Hnw & Hret).
    destruct IH as (Hsv' & Hnw' & Hret'); [by rewrite Hsv|].
    repeat split; [congruence|congruence|].
    intros i r Hi. destruct (Hret' i r Hi) as [Hy|Hr]; [|by right].
    by apply Hret.
Qed.

End Cache.

(** C1: once a call of [Spec] has returned a configuration, the service
    holds it; any number of calls after that return that same value, make
    no request (so fetch and decode nothing) and leave the cache set.  The
    same holds when the later calls come from several goroutines, in any
    interleaving: the service and the transport stay as they are, and
    every call that returns from then on returns the cached value. *)
Theorem Spec_cached_for_good (s s' : Http.Service) (t t' : Http.transport)
    (config : gmap string Http.specValue) :
  Http.Spec s t = ((Some config, None), s', t') ->
  Http.spec s' = Some config /\
  (forall n, Http.SpecCalls n s' t' = (replicate n (Some config, None), s', t')) /\
  (forall cs y, Http.steps (Http.mkSystem s' t' cs) y ->
     Http.service y = s' /\ Http.network y = t' /\
     forall i r, Http.calls y !! i = Some (Http.Returned r) ->
       cs !! i = Some (Http.Returned r) \/ r = (Some config, None)).
Proof.
  intros Hcall. rewrite Spec_lockedSpec in Hcall.
  pose proof (lockedSpec_stores s s' t t' config None Hcall) as Hs'.
  split; [done|]. split.
  - intros n. by apply SpecCalls_cached.
  - intros cs y Hsteps.
    by apply (steps_cached_stable (Http.mkSystem s' t' cs) y config).
Qed.

Lemma Spec_cached_for_good_witness :
  let t := Http.mkTransport
             (fun _ => (Some (Http.mkReader
                                (Http.mkSpecJSON {[ "CONFIG_NAME" := "mainnet" ]})
                                None), None)) 0 in
  let config := Http.buildConfig {[ "CONFIG_NAME" := "mainnet" ]} in
  Http.SpecCalls 2 (Http.mkService (Some config)) (requested t) =
    ([(Some config, None); (Some config, None)],
     Http.mkService (Some config), requested t).
Proof.
  intros t config.
  destruct (Spec_cached_for_good
              (Http.mkService None) (Http.mkService (Some config))
              t (requested t) config) as (_ & Hcalls & _);
    [reflexivity|].
  apply (Hcalls 2%nat).
Defined.

(** C6: when the cache is unset and the request fails, or brings no body,
    or brings a body that does not decode as JSON, [Spec] returns the
    error (wrapped with its context, no configuration) and leaves the cache
    unset; the next call then makes a request of its own, and returns the
    configuration if that request goes well.  No failure is cached. *)
Theorem failure_is_not_cached (s : Http.Service) (t : Http.transport)
    (e : Http.error) :
  Http.spec s = None ->
  fetchFails (Http.outcomes t (Http.requests t)) e ->
  Http.Spec s t = ((None, Some e), s, requested t) /\
  (forall r s2 t2, Http.Spec s (requested t) = (r, s2, t2) ->
     t2 = requested (requested t)) /\
  (forall data, fetches s (requested t) data ->
     Http.Spec s (requested t) =
       ((Some (Http.buildConfig data), None),
        Http.mkService (Some (Http.buildConfig data)),
        requested (requested t))).
Proof.
  intros Hs Hfail. split; [|split].
  - unfold Http.Spec, Http.lockedSpec, Http.get, requested. rewrite Hs.
    destruct Hfail as [body e0| |body e0 Hdec]; [by destruct body|done|].
    by rewrite Hdec.
  - intros r s2 t2. unfold Http.Spec, Http.lockedSpec, Http.get. rewrite Hs.
    fold (requested (requested t)).
    destruct (Http.outcomes (requested t) (Http.requests (requested t)))
      as [[body|] [e'|]]; try by intros [= _ _ <-].
    destruct (Http.decodeErr body); by intros [= _ _ <-].
  - intros data Hf. by rewrite (Spec_fetches _ _ data Hf).
Qed.

Lemma failure_is_not_cached_witness :
  let good := Http.mkReader (Http.mkSpecJSON {[ "CONFIG_NAME" := "mainnet" ]}) None in
  let t := Http.mkTransport
             (fun i => match i with
                       | O => (None, Some (Http.External "connection refused"))
                       | _ => (Some good, None)
                       end) 0 in
  Http.Spec (Http.mkService None) t =
    ((None, Some (Http.Wrap (Http.External "connection refused")
                            "failed to request spec")),
     Http.mkService None, requested t) /\
  Http.Spec (Http.mkService None) (requested t) =
    ((Some (Http.buildConfig {[ "CONFIG_NAME" := "mainnet" ]}), None),
     Http.mkService (Some (Http.buildConfig {[ "CONFIG_NAME" := "mainnet" ]})),
     requested (requested t)).
Proof.
  intros good t.
  destruct (failure_is_not_cached
              (Http.mkService None) t
              (Http.Wrap (Http.External "connection refused")
                         "failed to request spec"))
    as (Hfirst & _ & Hnext); [reflexivity | apply fails_request |].
  split; [exact Hfirst|].
  apply Hnext. split; [reflexivity|].
  exists good. repeat split.
Defined.

(** ** The multi client's [Fork] *)

(** C7, as amended: for a handle that implements the fork provider, the
    function literal that [Fork] hands to the dispatch engine always
    returns: an error of the backend's fork query comes back as the error
    value (with a nil result), and a fork comes back as the result. *)
Theorem forkCall_returns_failures {ForkT error : Type}
    (client : Multi.Client ForkT error)
    (provider : string -> option ForkT * option error) (stateID : string) :
  Multi.forkProvider client = Some provider ->
  (exists r, Multi.forkCall stateID client = Multi.Returns r) /\
  (forall fork e, provider stateID = (fork, Some e) ->
     Multi.forkCall stateID client = Multi.Returns (Multi.Nil, Some e)) /\
  (forall fork, provider stateID = (fork, None) ->
     Multi.forkCall stateID client = Multi.Returns (Multi.ForkPtr fork, None)).
Proof.
  intros Hp. unfold Multi.forkCall. rewrite Hp.
  split; [|split].
  - destruct (provider stateID) as [fork [e|]]; by eexists.
  - intros fork e ->. done.
  - intros fork ->. done.
Qed.

Lemma forkCall_returns_failures_witness :
  Multi.forkCall "head"
    (Multi.mkClient "beacon-1"
       (Some (fun _ : string => (None : option unit, Some "state not found"))))
  = Multi.Returns (Multi.Nil, Some "state not found").
Proof.
  destruct (forkCall_returns_failures
              (Multi.mkClient "beacon-1"
                 (Some (fun _ : string =>
                          (None : option unit, Some "state not found"))))
              (fun _ : string => (None : option unit, Some "state not found"))
              "head" eq_refl) as (_ & Herr & _).
  apply (Herr None "state not found"). reflexivity.
Defined.

(** C7 as the claim states it fails: for a handle that does not implement
    the fork provider, the type assertion in the function literal
    panics. *)
Lemma forkCall_panics_without_provider :
  ~ (forall (client : Multi.Client unit string) (stateID : string),
       exists r, Multi.forkCall stateID client = Multi.Returns r).
Proof.
  intros H.
  destruct (H (Multi.mkClient "beacon-1" None) "head") as [r Hr].
  discriminate Hr.
Qed.

(** C8: when the dispatch call returns no error and a nil result, [Fork]
    returns a nil fork and a nil error; the same when the result is a nil
    fork pointer. *)
Theorem Fork_empty_result {ForkT error : Type}
    (doCall : Multi.callFunc ForkT error ->
              Multi.outcome (Multi.iface ForkT * option error))
    (stateID : string) :
  doCall (Multi.forkCall stateID) = Multi.Returns (Multi.Nil, None) \/
    doCall (Multi.forkCall stateID) = Multi.Returns (Multi.ForkPtr None, None) ->
  Multi.Fork doCall stateID = Multi.Returns (None, None).
Proof. intros [H|H]; unfold Multi.Fork; by rewrite H. Qed.

Lemma Fork_empty_result_witness :
  Multi.Fork (ForkT := unit) (error := string)
    (fun _ => Multi.Returns (Multi.Nil, None)) "head"
  = Multi.Returns (None, None).
Proof.
  apply (Fork_empty_result (fun _ => Multi.Returns (Multi.Nil, None)) "head").
  left. reflexivity.
Defined.

(** C9: with the pass-through engine over one handle that implements the
    fork provider, [Fork] returns what the backend's fork query returns:
    its error and no fork when there is an error, its fork and no error
    otherwise. *)
Theorem Fork_pass_through {ForkT error : Type}
    (client : Multi.Client ForkT error)
    (provider : string -> option ForkT * option error) (stateID : string) :
  Multi.forkProvider client = Some provider ->
  (forall fork e, provider stateID = (fork, Some e) ->
     Multi.Fork (Multi.doCallPassThrough client) stateID
       = Multi.Returns (None, Some e)) /\
  (forall fork, provider stateID = (fork, None) ->
     Multi.Fork (Multi.doCallPassThrough client) stateID
       = Multi.Returns (fork, None)).
Proof.
  intros Hp.
  unfold Multi.Fork, Multi.doCallPassThrough, Multi.forkCall. rewrite Hp.
  split.
  - intros fork e ->. done.
  - intros fork ->. done.
Qed.

Lemma Fork_pass_through_witness :
  Multi.Fork
    (Multi.doCallPassThrough
       (Multi.mkClient "beacon-1"
          (Some (fun stateID : string => (Some stateID, None : option string)))))
    "head"
  = Multi.Returns (Some "head", None).
Proof.
  destruct (Fork_pass_through
              (Multi.mkClient "beacon-1"
                 (Some (fun stateID : string =>
                          (Some stateID, None : option string))))
              (fun stateID : string => (Some stateID, None : option string))
              "head" eq_refl) as [_ Hok].
  apply (Hok (Some "head")). reflexivity.
Defined.

(** * Further properties of [Spec] *)

(** ** Strings *)

Section StringFacts.

Lemma substring_all (s : string) : substring 0 (String.length s) s = s.
Proof. induction s as [|c s IH]; simpl; [done|by rewrite IH]. Qed.

Lemma HasPrefix_get (s prefix : string) (p : nat) :
  Strings.HasPrefix s prefix = true ->
  (p < String.length prefix)%nat ->
  String.get p prefix = String.get p s.
Proof.
  unfold Strings.HasPrefix. intros H Hp.
  apply andb_true_iff in H as [_ Heq]. apply String.eqb_eq in Heq.
  rewrite <- Heq at 1. rewrite substring_correct1 by done.
  by rewrite Nat.add_0_r.
Qed.

(** A value with the prefix "0x" is "0x" followed by what [TrimPrefix]
    leaves. *)
Lemma HasPrefix_0x (v : string) :
  Strings.HasPrefix v "0x" = true ->
  v = String "0" (String "x" (Strings.TrimPrefix v "0x")).
Proof.
  intros H. unfold Strings.TrimPrefix. rewrite H.
  destruct v as [|a [|b rest]]; try done.
  unfold Strings.HasPrefix in H. simpl in H.
  destruct (Ascii.eqb_spec a "0") as [->|]; [|done].
  destruct (Ascii.eqb_spec b "x") as [->|]; [|done].
  unfold Strings.from. simpl. rewrite Nat.sub_0_r.
  by rewrite substring_all.
Qed.

(** A numeral does not begin with "0x". *)
Lemma allDigits_not_0x (v : string) :
  allDigits v = true -> Strings.HasPrefix v "0x" = false.
Proof.
  intros Hd. destruct (Strings.HasPrefix v "0x") eqn:H; [|done].
  apply HasPrefix_0x in H. rewrite H in Hd.
  change (isDigit "0" && (isDigit "x" && allDigits (Strings.TrimPrefix v "0x"))
          = true) in Hd.
  apply andb_true_iff in Hd as [_ Hd]. apply andb_true_iff in Hd as [Hx _].
  discriminate Hx.
Qed.

(** A key that the duration test matches does not begin with "DOMAIN_". *)
Lemma durationKey_not_domain (k : string) :
  durationKey k = true -> Strings.HasPrefix k "DOMAIN_" = false.
Proof.
  unfold durationKey. intros H.
  destruct (Strings.HasPrefix k "DOMAIN_") eqn:Hd; [|done].
  pose proof (HasPrefix_get k "DOMAIN_" 0 Hd ltac:(simpl; lia)) as Hget.
  apply orb_true_iff in H as [Hs|He].
  - pose proof (HasPrefix_get k "SECONDS_PER_" 0 Hs ltac:(simpl; lia)) as Hget'.
    rewrite <- Hget in Hget'. discriminate Hget'.
  - apply String.eqb_eq in He. by subst k.
Qed.

End StringFacts.

(** ** Values in hexadecimal, the value "0" and the empty value *)

Section HexValues.
Import Http.

(** Two characters make one byte. *)
Lemma Decode_length (src : string) (out : list Z) :
  Hex.Decode src = (out, None) -> String.length src = (2 * length out)%nat.
Proof.
  assert (forall n s o, (String.length s <= n)%nat ->
            Hex.Decode s = (o, None) ->
            String.length s = (2 * length o)%nat) as H.
  { induction n as [|n IH]; intros [|p [|q rest]] o Hlen; simpl in *;
      try lia; try (by intros [= <-]); try (by case_match).
    repeat (case_match; [by intros [=]|]).
    destruct (Hex.Decode rest) as [o' e'] eqn:Hrest.
    intros [= <- ->]. simpl.
    rewrite (IH rest o') by (done || lia). lia. }
  by apply (H (String.length src)).
Qed.

Lemma firstMatch_hex (k v : string) (byteVal : list Z) :
  Strings.HasPrefix v "0x" = true ->
  Hex.DecodeString (Strings.TrimPrefix v "0x") = (byteVal, None) ->
  firstMatch rules k v =
    Some (if Strings.HasPrefix k "DOMAIN_"
          then VDomainType (Phase0.copy Phase0.zero byteVal)
          else if Strings.HasSuffix k "_FORK_VERSION"
          then VVersion (Phase0.copy Phase0.zero byteVal)
          else VBytes byteVal).
Proof.
  intros Hv Hb.
  unfold rules, firstMatch, domainRule, forkVersionRule, hexRule.
  rewrite Hv, Hb.
  by destruct (Strings.HasPrefix k "DOMAIN_"),
    (Strings.HasSuffix k "_FORK_VERSION").
Qed.

Lemma decodeEntry_empty (k : string) :
  decodeEntry k "" =
    if Strings.HasPrefix k "DOMAIN_" then VDomainType [0; 0; 0; 0]
    else if Strings.HasSuffix k "_FORK_VERSION" then VVersion [0; 0; 0; 0]
    else VString "".
Proof.
  unfold decodeEntry, rules, firstMatch, domainRule, forkVersionRule,
    hexRule, timeRule, durationRule.
  destruct (Strings.HasPrefix k "DOMAIN_"),
    (Strings.HasSuffix k "_FORK_VERSION"), (Strings.HasSuffix k "_TIME"),
    (Strings.HasPrefix k "SECONDS_PER_" || String.eqb k "GENESIS_DELAY");
    reflexivity.
Qed.

End HexValues.

(** X1: a value that begins with "0x" and goes on with valid hex is
    stored in binary under every key: as a 4-byte domain type under a
    "DOMAIN_" key, else as a 4-byte version under a "_FORK_VERSION" key,
    else as the byte slice of all its decoded bytes, one byte for every
    two characters after the "0x".  No time, duration, integer or string
    comes of it, whatever the key. *)
Theorem hex_value_is_binary (data : gmap string string) (k v : string)
    (byteVal : list Z) :
  data !! k = Some v ->
  Strings.HasPrefix v "0x" = true ->
  Hex.DecodeString (Strings.TrimPrefix v "0x") = (byteVal, None) ->
  Http.buildConfig data !! k =
    Some (if Strings.HasPrefix k "DOMAIN_"
          then Http.VDomainType (Phase0.copy Phase0.zero byteVal)
          else if Strings.HasSuffix k "_FORK_VERSION"
          then Http.VVersion (Phase0.copy Phase0.zero byteVal)
          else Http.VBytes byteVal) /\
  String.length v = (2 + 2 * length byteVal)%nat /\
  Forall is_byte byteVal.
Proof.
  intros Hdata Hv Hb. split; [|split].
  - rewrite buildConfig_lookup, Hdata. unfold Http.decodeEntry.
    by rewrite (firstMatch_hex k v byteVal).
  - rewrite (HasPrefix_0x v Hv) at 1. simpl.
    by rewrite (Decode_length _ byteVal Hb).
  - by eapply DecodeString_bytes.
Qed.

Lemma hex_value_is_binary_witness :
  Http.buildConfig {[ "DEPOSIT_CONTRACT_ADDRESS" := "0x00000000219ab540" ]}
    !! "DEPOSIT_CONTRACT_ADDRESS"
  = Some (Http.VBytes [0; 0; 0; 0; 33; 154; 181; 64]).
Proof.
  destruct (hex_value_is_binary
              {[ "DEPOSIT_CONTRACT_ADDRESS" := "0x00000000219ab540" ]}
              "DEPOSIT_CONTRACT_ADDRESS" "0x00000000219ab540"
              [0; 0; 0; 0; 33; 154; 181; 64]) as (Hcfg & _);
    [reflexivity | reflexivity | reflexivity |].
  exact Hcfg.
Defined.

(** X2: the value "0" is stored as the unsigned integer 0 under every
    key, also under the keys of domains, fork versions, times and
    durations: it is not valid hex (one character), and the time and the
    duration block pass a zero on. *)
Theorem zero_value_is_uint64_zero (data : gmap string string) (k : string) :
  data !! k = Some "0" ->
  Http.buildConfig data !! k = Some (Http.VUint64 0).
Proof.
  intros Hdata. by rewrite buildConfig_lookup, Hdata, decodeEntry_zero.
Qed.

Lemma zero_value_is_uint64_zero_witness :
  Http.buildConfig {[ "SECONDS_PER_ETH1_BLOCK" := "0" ]}
    !! "SECONDS_PER_ETH1_BLOCK" = Some (Http.VUint64 0).
Proof.
  apply (zero_value_is_uint64_zero
           {[ "SECONDS_PER_ETH1_BLOCK" := "0" ]} "SECONDS_PER_ETH1_BLOCK").
  reflexivity.
Defined.

(** X3: the empty value is valid hex of no bytes: under a "DOMAIN_" key
    it is the all-zero domain type, under a "_FORK_VERSION" key the
    all-zero version, and under every other key the empty string. *)
Theorem empty_value_decoding (data : gmap string string) (k : string) :
  data !! k = Some "" ->
  Http.buildConfig data !! k =
    Some (if Strings.HasPrefix k "DOMAIN_" then Http.VDomainType [0; 0; 0; 0]
          else if Strings.HasSuffix k "_FORK_VERSION"
          then Http.VVersion [0; 0; 0; 0]
          else Http.VString "").
Proof.
  intros Hdata. by rewrite buildConfig_lookup, Hdata, decodeEntry_empty.
Qed.

Lemma empty_value_decoding_witness :
  Http.buildConfig {[ "DOMAIN_RANDAO" := "" ]} !! "DOMAIN_RANDAO"
  = Some (Http.VDomainType [0; 0; 0; 0]).
Proof.
  apply (empty_value_decoding {[ "DOMAIN_RANDAO" := "" ]} "DOMAIN_RANDAO").
  reflexivity.
Defined.

(** ** Values that are numerals *)

Section Numerals.
Import Http.

Lemma unsignedDecimal_allDigits (v : string) (n : Z) :
  unsignedDecimal v = Some n -> allDigits v = true /\ v <> "".
Proof.
  destruct v as [|c rest]; [done|]. unfold unsignedDecimal.
  by destruct (allDigits (String c rest)).
Qed.

(** Without a sign, the signed reading of a numeral is the unsigned one. *)
Lemma signedDecimal_unsigned (v : string) (n : Z) :
  unsignedDecimal v = Some n -> signedDecimal v = Some n.
Proof.
  intros Hn. destruct (unsignedDecimal_allDigits v n Hn) as [Hall _].
  destruct v as [|c rest]; [done|]. unfold signedDecimal.
  change (allDigits (String c rest)) with (isDigit c && allDigits rest) in Hall.
  apply andb_true_iff in Hall as [Hc _].
  destruct (Ascii.eqb_spec c "+") as [->|_]; [discriminate Hc|].
  destruct (Ascii.eqb_spec c "-") as [->|_]; [discriminate Hc|].
  done.
Qed.

(** The numeral of a number other than zero is not "0". *)
Lemma numeral_not_zero (v : string) (n : Z) :
  unsignedDecimal v = Some n -> n <> 0 -> String.eqb v "0" = false.
Proof.
  intros Hn Hn0. destruct (String.eqb_spec v "0") as [->|]; [|done].
  injection Hn as <-. by destruct Hn0.
Qed.

(** What the two integer tests at the end of the loop body make of a
    numeral. *)
Lemma integer_tests_numeral (k v : string) (n : Z) :
  unsignedDecimal v = Some n ->
  match firstMatch [zeroRule; integerRule] k v with
  | Some x => x
  | None => VString v
  end =
    if (0 <? n) && (n <? Int.two64) then VUint64 n
    else if String.eqb v "0" then VUint64 0 else VString v.
Proof.
  intros Hn. pose proof (unsignedDecimal_nonneg v n Hn) as Hn0.
  unfold firstMatch, zeroRule, integerRule.
  destruct (Z.ltb_spec 0 n) as [Hpos|Hzero]; simpl.
  - rewrite (numeral_not_zero v n Hn) by lia.
    destruct (Z.ltb_spec n Int.two64) as [Hfit|Hbig].
    + rewrite (proj2 (ParseUint_ok_iff v n) (conj Hn Hfit)).
      by destruct (Z.eqb_spec n 0); [lia|].
    + destruct (Strconv.ParseUint v) as [m [e|]] eqn:Hm; [done|].
      apply ParseUint_ok_iff in Hm as [Hm ?]. assert (m = n) by congruence. lia.
  - assert (n = 0) as -> by lia.
    destruct (String.eqb v "0"); [done|].
    assert (0 < Int.two64) as H64 by reflexivity.
    by rewrite (proj2 (ParseUint_ok_iff v 0) (conj Hn H64)).
Qed.

Lemma firstMatch_plain (k v : string) :
  plainKey k ->
  Strings.HasPrefix v "0x" = false ->
  firstMatch rules k v = firstMatch [zeroRule; integerRule] k v.
Proof.
  intros (Hd & Hf & Ht & Hs & Hg) Hv.
  unfold rules, firstMatch, domainRule, forkVersionRule, hexRule, timeRule,
    durationRule.
  by rewrite Hd, Hf, Hv, Ht, Hs, Hg.
Qed.

Lemma firstMatch_duration (k v : string) (n : Z) :
  durationKey k = true ->
  Strings.HasSuffix k "_FORK_VERSION" = false ->
  Strings.HasSuffix k "_TIME" = false ->
  unsignedDecimal v = Some n ->
  0 < n < Int.two64 ->
  firstMatch rules k v =
    Some (VDuration (Int.to_int64 (Int.to_int64 n * Time.Second))).
Proof.
  intros Hk Hf Ht Hn Hrange.
  destruct (unsignedDecimal_allDigits v n Hn) as [Hall _].
  unfold rules, firstMatch, domainRule, forkVersionRule, hexRule, timeRule,
    durationRule.
  rewrite (durationKey_not_domain k Hk), Hf, (allDigits_not_0x v Hall), Ht.
  unfold durationKey in Hk. rewrite Hk.
  rewrite (proj2 (ParseUint_ok_iff v n) (conj Hn (proj2 Hrange))).
  by destruct (Z.eqb_spec n 0); [lia|].
Qed.

Lemma firstMatch_time_beyond (k v : string) (n : Z) :
  Strings.HasSuffix k "_TIME" = true ->
  Strings.HasPrefix k "DOMAIN_" = false ->
  durationKey k = false ->
  unsignedDecimal v = Some n ->
  Int.two63 <= n ->
  firstMatch rules k v = firstMatch [zeroRule; integerRule] k v.
Proof.
  intros Hk Hd Hs Hn Hbig.
  destruct (unsignedDecimal_allDigits v n Hn) as [Hall _].
  unfold rules, firstMatch, domainRule, forkVersionRule, hexRule, timeRule,
    durationRule.
  rewrite Hd, (TIME_not_FORK_VERSION k Hk), (allDigits_not_0x v Hall), Hk.
  unfold durationKey in Hs. rewrite Hs.
  destruct (Strconv.ParseInt v) as [m [e|]] eqn:Hm; [done|].
  apply ParseInt_ok_iff in Hm as [Hm ?].
  rewrite (signedDecimal_unsigned v n Hn) in Hm.
  assert (m = n) by congruence. lia.
Qed.

End Numerals.

(** X4: under a key that none of the key tests matches, a numeral of a
    number between 1 and 2^64 - 1 is stored as that unsigned integer,
    leading zeros or not; the numeral "0" is the integer 0; every other
    numeral (a zero written with several digits, or a number of 2^64 or
    more) is stored as the string it is. *)
Theorem plain_key_numeral (data : gmap string string) (k v : string) (n : Z) :
  data !! k = Some v ->
  plainKey k ->
  unsignedDecimal v = Some n ->
  Http.buildConfig data !! k =
    Some (if (0 <? n) && (n <? Int.two64) then Http.VUint64 n
          else if String.eqb v "0" then Http.VUint64 0 else Http.VString v).
Proof.
  intros Hdata Hk Hn.
  destruct (unsignedDecimal_allDigits v n Hn) as [Hall _].
  rewrite buildConfig_lookup, Hdata. unfold Http.decodeEntry.
  rewrite (firstMatch_plain k v Hk (allDigits_not_0x v Hall)).
  by rewrite <- (integer_tests_numeral k v n Hn).
Qed.

Lemma plain_key_numeral_witness :
  Http.buildConfig {[ "MAX_VALIDATORS_PER_COMMITTEE" := "2048";
                      "DEPOSIT_NETWORK_ID" := "00" ]}
    !! "MAX_VALIDATORS_PER_COMMITTEE" = Some (Http.VUint64 2048) /\
  Http.buildConfig {[ "MAX_VALIDATORS_PER_COMMITTEE" := "2048";
                      "DEPOSIT_NETWORK_ID" := "00" ]}
    !! "DEPOSIT_NETWORK_ID" = Some (Http.VString "00").
Proof.
  split.
  - apply (plain_key_numeral _ "MAX_VALIDATORS_PER_COMMITTEE" "2048" 2048);
      [reflexivity | by repeat split | reflexivity].
  - apply (plain_key_numeral _ "DEPOSIT_NETWORK_ID" "00" 0);
      [reflexivity | by repeat split | reflexivity].
Defined.

(** X5: under a key that begins with "SECONDS_PER_" or is
    "GENESIS_DELAY" (and does not end in "_FORK_VERSION" or "_TIME"), a
    numeral of a number between 1 and 2^64 - 1 is stored as a duration of
    that many seconds, counted in nanoseconds in an [int64].  Up to
    9223372036 seconds the count is exact; beyond, it wraps. *)
Theorem duration_key_numeral (data : gmap string string) (k v : string) (n : Z) :
  data !! k = Some v ->
  durationKey k = true ->
  Strings.HasSuffix k "_FORK_VERSION" = false ->
  Strings.HasSuffix k "_TIME" = false ->
  unsignedDecimal v = Some n ->
  0 < n < Int.two64 ->
  Http.buildConfig data !! k =
    Some (Http.VDuration (Int.to_int64 (Int.to_int64 n * Time.Second))) /\
  (n <= 9223372036 ->
     Int.to_int64 (Int.to_int64 n * Time.Second) = n * 1000000000).
Proof.
  intros Hdata Hk Hf Ht Hn Hrange. split.
  - rewrite buildConfig_lookup, Hdata. unfold Http.decodeEntry.
    by rewrite (firstMatch_duration k v n).
  - intros Hsmall. unfold Time.Second.
    assert (Int.two63 = 9223372036854775808) as H63 by reflexivity.
    rewrite (to_int64_small n) by lia. apply to_int64_small. lia.
Qed.

Lemma duration_key_numeral_witness :
  Http.buildConfig {[ "SECONDS_PER_SLOT" := "12" ]} !! "SECONDS_PER_SLOT"
  = Some (Http.VDuration 12000000000).
Proof.
  destruct (duration_key_numeral {[ "SECONDS_PER_SLOT" := "12" ]}
              "SECONDS_PER_SLOT" "12" 12) as [Hcfg Hexact];
    [reflexivity | reflexivity | reflexivity | reflexivity | reflexivity
    | by vm_compute |].
  rewrite Hcfg. rewrite Hexact by lia. reflexivity.
Defined.

(** X6: a time is a signed 64-bit number of seconds.  Under a "_TIME" key
    (that no other key test matches) a numeral of a number from 2^63 to
    2^64 - 1 is therefore no time: it is stored as the unsigned integer;
    from 2^64 on it is stored as a string. *)
Theorem time_key_beyond_int64 (data : gmap string string) (k v : string) (n : Z) :
  data !! k = Some v ->
  Strings.HasSuffix k "_TIME" = true ->
  Strings.HasPrefix k "DOMAIN_" = false ->
  durationKey k = false ->
  unsignedDecimal v = Some n ->
  Int.two63 <= n ->
  Http.buildConfig data !! k =
    Some (if n <? Int.two64 then Http.VUint64 n else Http.VString v).
Proof.
  intros Hdata Hk Hd Hs Hn Hbig.
  rewrite buildConfig_lookup, Hdata. unfold Http.decodeEntry.
  rewrite (firstMatch_time_beyond k v n) by done.
  rewrite (integer_tests_numeral k v n Hn).
  assert (Int.two63 = 9223372036854775808) as H63 by reflexivity.
  destruct (Z.ltb_spec 0 n); [|lia]. simpl.
  destruct (n <? Int.two64); [done|].
  by rewrite (numeral_not_zero v n Hn) by lia.
Qed.

Lemma time_key_beyond_int64_witness :
  Http.buildConfig {[ "MIN_GENESIS_TIME" := "9223372036854775808" ]}
    !! "MIN_GENESIS_TIME" = Some (Http.VUint64 9223372036854775808).
Proof.
  apply (time_key_beyond_int64 _ "MIN_GENESIS_TIME" "9223372036854775808"
           9223372036854775808);
    [reflexivity | reflexivity | reflexivity | reflexivity | reflexivity
    | by vm_compute].
Defined.

(** ** The configuration as a whole *)

Section Configuration.
Import Http.

Lemma to_int64_range (z : Z) : - Int.two63 <= Int.to_int64 z < Int.two63.
Proof.
  unfold Int.to_int64.
  assert (Int.two63 = 9223372036854775808) as H63 by reflexivity.
  assert (Int.two64 = 18446744073709551616) as H64 by reflexivity.
  pose proof (Z.mod_pos_bound (z + Int.two63) Int.two64). lia.
Qed.

Lemma ParseUint_range (v : string) (n : Z) :
  Strconv.ParseUint v = (n, None) -> 0 <= n < Int.two64.
Proof.
  intros [Hn Hlt]%ParseUint_ok_iff.
  split; [by eapply unsignedDecimal_nonneg|done].
Qed.

Lemma decodeEntry_wellFormed (k v : string) : wellFormed (decodeEntry k v).
Proof.
  unfold decodeEntry, rules, firstMatch.
  destruct (domainRule k v) as [x|] eqn:H1.
  { unfold domainRule in H1. destruct (Strings.HasPrefix k "DOMAIN_"); [|done].
    destruct (Hex.DecodeString _) as [bs [e|]] eqn:Hb; [done|].
    injection H1 as <-. split; [apply copy_zero_length|].
    eapply copy_zero_bytes, DecodeString_bytes, Hb. }
  destruct (forkVersionRule k v) as [x|] eqn:H2.
  { unfold forkVersionRule in H2.
    destruct (Strings.HasSuffix k "_FORK_VERSION"); [|done].
    destruct (Hex.DecodeString _) as [bs [e|]] eqn:Hb; [done|].
    injection H2 as <-. split; [apply copy_zero_length|].
    eapply copy_zero_bytes, DecodeString_bytes, Hb. }
  destruct (hexRule k v) as [x|] eqn:H3.
  { unfold hexRule in H3. destruct (Strings.HasPrefix v "0x"); [|done].
    destruct (Hex.DecodeString _) as [bs [e|]] eqn:Hb; [done|].
    injection H3 as <-. eapply DecodeString_bytes, Hb. }
  destruct (timeRule k v) as [x|] eqn:H4.
  { unfold timeRule in H4. destruct (Strings.HasSuffix k "_TIME"); [|done].
    destruct (Strconv.ParseInt v) as [n [e|]] eqn:Hn; [done|].
    destruct (Z.eqb_spec n 0) as [|Hn0]; [done|]. injection H4 as <-.
    apply ParseInt_ok_iff in Hn as [_ Hrange].
    exists n. split; [done|]. split; [done|]. split; [done|].
    split; [by apply unixSec_Unix|apply Unix_whole_nsec]. }
  destruct (durationRule k v) as [x|] eqn:H5.
  { unfold durationRule in H5. destruct (_ || _); [|done].
    destruct (Strconv.ParseUint v) as [n [e|]]; [done|].
    destruct (n =? 0); [done|]. injection H5 as <-. apply to_int64_range. }
  destruct (zeroRule k v) as [x|] eqn:H6.
  { unfold zeroRule in H6. destruct (String.eqb v "0"); [|done].
    injection H6 as <-. by vm_compute. }
  destruct (integerRule k v) as [x|] eqn:H7; [|done].
  unfold integerRule in H7.
  destruct (Strconv.ParseUint v) as [n [e|]] eqn:Hn; [done|].
  destruct (n =? 0); [done|]. injection H7 as <-.
  by apply ParseUint_range in Hn.
Qed.

Lemma patches_wellFormed (k : string) (x : specValue) :
  (k, x) ∈ patches -> wellFormed x.
Proof.
  unfold patches. rewrite !elem_of_cons, elem_of_nil.
  intros [H|[H|[H|[H|[H|[]]]]]]; injection H as -> ->; simpl;
    try (by vm_compute);
    (split; [done|]); unfold is_byte; repeat constructor; lia.
Qed.

Lemma patchKeys_lookup (k : string) :
  k ∈ patchKeys <-> is_Some ((list_to_map patches : gmap string specValue) !! k).
Proof.
  unfold patchKeys.
  by rewrite <- (dom_list_to_map_L (M := gmap string)), elem_of_dom.
Qed.

End Configuration.

(** X7: the keys of the configuration are the keys of the payload and the
    five patch keys, no others: whatever the payload, the five constants
    are there, and the loop and the patch step bring in no further key. *)
Theorem buildConfig_keys (data : gmap string string) :
  dom (Http.buildConfig data) = dom data ∪ patchKeys /\
  patchKeys =
    {[ "DOMAIN_CONTRIBUTION_AND_PROOF"; "DOMAIN_SYNC_COMMITTEE";
       "DOMAIN_SYNC_COMMITTEE_SELECTION_PROOF"; "SYNC_COMMITTEE_SUBNET_COUNT";
       "TARGET_AGGREGATORS_PER_SYNC_SUBCOMMITTEE" ]}.
Proof.
  split.
  - apply set_eq. intros k.
    rewrite elem_of_union, !elem_of_dom, patchKeys_lookup, buildConfig_lookup.
    destruct (data !! k) as [v|]; split; intros H; eauto.
    by destruct H as [[? [=]]|H].
  - unfold patchKeys. simpl. set_solver.
Qed.

(** X8: every value of the configuration fits the Go type it is stored
    with: a domain type or a version has four bytes, a byte slice holds
    bytes, a time is a nonzero number of whole seconds within [int64], a
    duration is within [int64] and an integer within [uint64]. *)
Theorem buildConfig_wellFormed (data : gmap string string) (k : string)
    (x : Http.specValue) :
  Http.buildConfig data !! k = Some x -> wellFormed x.
Proof.
  rewrite buildConfig_lookup. destruct (data !! k) as [v|].
  - intros [= <-]. apply decodeEntry_wellFormed.
  - intros H. apply (patches_wellFormed k).
    by apply elem_of_list_to_map_2 in H.
Qed.

Lemma buildConfig_wellFormed_witness :
  wellFormed (Http.VTime (Time.Unix 1606824000 0)).
Proof.
  apply (buildConfig_wellFormed
           {[ "MIN_GENESIS_TIME" := "1606824000" ]} "MIN_GENESIS_TIME").
  reflexivity.
Defined.

(** X9: Go leaves the order of a range over a map open.  In whatever
    order the loop visits the entries of the payload, the configuration
    that the loop and the patch step build is the same. *)
Theorem buildConfig_any_order (data : gmap string string)
    (entries : list (string * string)) :
  entries ≡ₚ map_to_list data ->
  Http.patch (Http.decodeEntries entries) = Http.buildConfig data.
Proof.
  intros Hperm. unfold Http.buildConfig.
  by rewrite (decodeEntries_order data entries Hperm).
Qed.

Lemma buildConfig_any_order_witness :
  Http.patch (Http.decodeEntries [("B", "2"); ("A", "1")]) =
  Http.buildConfig {[ "A" := "1"; "B" := "2" ]} /\
  Http.patch (Http.decodeEntries [("A", "1"); ("B", "2")]) =
  Http.buildConfig {[ "A" := "1"; "B" := "2" ]}.
Proof.
  split; apply buildConfig_any_order; vm_compute;
    first [apply Permutation_refl | apply perm_swap].
Defined.

(** ** Calls of [Spec] *)

Section Calls.
Import Http.

Lemma failureOf_fails (o : option reader * option error) (e : error) :
  fetchFails o e <-> failureOf o = Some e.
Proof.
  split.
  - intros [body e0| |body e0 Hdec]; simpl;
      [by destruct body|done|by rewrite Hdec].
  - destruct o as [[body|] [e0|]]; simpl.
    + intros [= <-]. constructor.
    + destruct (decodeErr body) as [e0|] eqn:Hdec; [|done].
      intros [= <-]. by constructor.
    + intros [= <-]. constructor.
    + intros [= <-]. constructor.
Qed.

(** With the cache unset, [Spec] makes one request and returns what
    [failureOf] makes of a bad outcome. *)
Lemma Spec_unset (s : Service) (t : transport) :
  spec s = None ->
  Spec s t =
    match failureOf (outcomes t (requests t)) with
    | Some e => ((None, Some e), s, requested t)
    | None =>
        match (outcomes t (requests t)).1 with
        | Some body =>
            let config := buildConfig (Data (decoded body)) in
            ((Some config, None), mkService (Some config), requested t)
        | None => ((None, None), s, requested t)
        end
    end.
Proof.
  intros Hs. unfold Spec, lockedSpec, get, requested. rewrite Hs.
  destruct (outcomes t (requests t)) as [[body|] [e|]]; simpl; try done.
  by destruct (decodeErr body).
Qed.

Lemma returnsAgree_step (x y : system) :
  step x y -> returnsAgree x -> returnsAgree y.
Proof.
  intros Hstep Hx.
  destruct Hstep as [s t cs j c Hj Hc|s t cs j Hj Hc|s t cs j r s' t' Hj Hr|s t cs];
    intros i config; simpl in *.
  - destruct (decide (i = j)) as [->|Hne].
    + rewrite list_lookup_insert_eq by (by eapply lookup_lt_Some).
      intros [= <-]. done.
    + rewrite list_lookup_insert_ne by done. apply Hx.
  - destruct (decide (i = j)) as [->|Hne].
    + by rewrite list_lookup_insert_eq by (by eapply lookup_lt_Some).
    + rewrite list_lookup_insert_ne by done. apply Hx.
  - destruct (spec s) as [c|] eqn:Hs.
    + rewrite (lockedSpec_cached s t c Hs) in Hr. injection Hr as <- <- <-.
      destruct (decide (i = j)) as [->|Hne].
      * rewrite list_lookup_insert_eq by (by eapply lookup_lt_Some).
        intros [= <-]. done.
      * rewrite list_lookup_insert_ne by done. intros Hi.
        by apply (Hx i config).
    + destruct (decide (i = j)) as [->|Hne].
      * rewrite list_lookup_insert_eq by (by eapply lookup_lt_Some).
        intros [= ->]. by eapply lockedSpec_stores.
      * rewrite list_lookup_insert_ne by done. intros Hi.
        specialize (Hx i config Hi). simpl in Hx. congruence.
  - intros Hi. apply (Hx i config). simpl.
    apply lookup_app_Some in Hi as [Hi|[_ Hi]]; [done|].
    by destruct (i - length cs)%nat as [|[|?]].
Qed.

Lemma returnsAgree_steps (x y : system) :
  steps x y -> returnsAgree x -> returnsAgree y.
Proof.
  intros Hsteps. induction Hsteps as [x|x y z Hstep _ IH]; [done|].
  intros Hx. by apply IH, (returnsAgree_step x y).
Qed.

End Calls.

(** X10: a call of [Spec] returns either a configuration and no error,
    and then the service holds that configuration, or an error and no
    configuration, and then the service is as before, with its cache
    unset.  The call makes one request when it finds the cache unset, on
    the error paths as well, and none when it finds it set. *)
Theorem Spec_outcome (s s' : Http.Service) (t t' : Http.transport)
    (r : Http.result) :
  Http.Spec s t = (r, s', t') ->
  (exists config,
     r = (Some config, None) /\ Http.spec s' = Some config /\
     (Http.spec s = Some config /\ s' = s /\ t' = t \/
      Http.spec s = None /\ t' = requested t)) \/
  (exists e,
     r = (None, Some e) /\ s' = s /\ Http.spec s = None /\ t' = requested t /\
     fetchFails (Http.outcomes t (Http.requests t)) e).
Proof.
  destruct (Http.spec s) as [c|] eqn:Hs.
  - rewrite (Spec_cached s t c Hs). intros [= <- <- <-].
    left. exists c. split; [done|]. split; [done|]. by left.
  - rewrite (Spec_unset s t Hs).
    destruct (failureOf (Http.outcomes t (Http.requests t))) as [e|] eqn:Hf.
    + intros [= <- <- <-]. right. exists e.
      by rewrite failureOf_fails.
    + destruct (Http.outcomes t (Http.requests t)) as [[body|] [e|]];
        try done.
      simpl. intros [= <- <- <-]. left. eexists.
      split; [done|]. split; [done|]. by right.
Qed.

Lemma Spec_outcome_witness :
  fetchFails (None, None) (Http.New "failed to obtain spec").
Proof.
  destruct (Spec_outcome
              (Http.mkService None) (Http.mkService None)
              (Http.mkTransport (fun _ => (None, None)) 0)
              (Http.mkTransport (fun _ => (None, None)) 1)
              (None, Some (Http.New "failed to obtain spec")) eq_refl)
    as [(config & Hr & _)|(e & Hr & _ & _ & _ & Hfail)].
  - discriminate Hr.
  - injection Hr as <-. exact Hfail.
Defined.

(** X11: calls of [Spec] from several goroutines agree.  From a state in
    which every configuration returned so far is the one in [s.spec] (for
    one, a state in which no call has returned), every interleaving leads
    to such a state again: any two calls that return a configuration
    return the same one, the one the service holds. *)
Theorem Spec_single_flight (x y : Http.system) :
  Http.steps x y ->
  returnsAgree x ->
  returnsAgree y /\
  forall i j c1 c2,
    Http.calls y !! i = Some (Http.Returned (Some c1, None)) ->
    Http.calls y !! j = Some (Http.Returned (Some c2, None)) ->
    c1 = c2.
Proof.
  intros Hsteps Hx.
  pose proof (returnsAgree_steps x y Hsteps Hx) as Hy.
  split; [done|]. intros i j c1 c2 Hi Hj.
  pose proof (Hy i c1 Hi). pose proof (Hy j c2 Hj). congruence.
Qed.

Lemma Spec_single_flight_witness :
  let good := Http.mkReader (Http.mkSpecJSON {[ "CONFIG_NAME" := "mainnet" ]}) None in
  let t := Http.mkTransport (fun _ => (Some good, None)) 0 in
  let config := Http.buildConfig {[ "CONFIG_NAME" := "mainnet" ]} in
  returnsAgree
    (Http.mkSystem (Http.mkService (Some config)) (requested t)
       [Http.Returned (Some config, None); Http.Returned (Some config, None)]).
Proof.
  intros good t config.
  apply (Spec_single_flight
           (Http.mkSystem (Http.mkService None) t [Http.Entering; Http.Entering])).
  - apply (Http.steps_step _
             (Http.mkSystem (Http.mkService None) t [Http.AtLock; Http.Entering]));
      [exact (Http.step_to_lock (Http.mkService None) t
                [Http.Entering; Http.Entering] 0 eq_refl eq_refl)|].
    apply (Http.steps_step _
             (Http.mkSystem (Http.mkService None) t [Http.AtLock; Http.AtLock]));
      [exact (Http.step_to_lock (Http.mkService None) t
                [Http.AtLock; Http.Entering] 1 eq_refl eq_refl)|].
    apply (Http.steps_step _
             (Http.mkSystem (Http.mkService (Some config)) (requested t)
                [Http.Returned (Some config, None); Http.AtLock]));
      [exact (Http.step_locked (Http.mkService None) t
                [Http.AtLock; Http.AtLock] 0 (Some config, None)
                (Http.mkService (Some config)) (requested t) eq_refl eq_refl)|].
    apply (Http.steps_step _
             (Http.mkSystem (Http.mkService (Some config)) (requested t)
                [Http.Returned (Some config, None);
                 Http.Returned (Some config, None)]));
      [exact (Http.step_locked (Http.mkService (Some config)) (requested t)
                [Http.Returned (Some config, None); Http.AtLock] 1
                (Some config, None)
                (Http.mkService (Some config)) (requested t) eq_refl eq_refl)|].
    apply Http.steps_refl.
  - intros i c H. destruct i as [|[|i]]; discriminate H.
Defined.

(** X12: calls of [Spec] one after the other retry until the first good
    outcome.  With the cache unset, if the next [j] requests fail (request
    error, no body, or a body that does not decode) and the one after
    them brings a payload, then of [n > j] calls the first [j] return the
    errors of those requests in order, all the others return the
    configuration built from that payload, and [j + 1] requests are made
    in all. *)
Theorem Spec_retries_until_success (s : Http.Service) (t : Http.transport)
    (j n : nat) (body : Http.reader) :
  Http.spec s = None ->
  (forall i, (i < j)%nat ->
     badOutcome (Http.outcomes t (Http.requests t + i))) ->
  Http.outcomes t (Http.requests t + j) = (Some body, None) ->
  Http.decodeErr body = None ->
  (j < n)%nat ->
  Http.SpecCalls n s t =
    ((((fun i => (None, failureOf (Http.outcomes t (Http.requests t + i))))
         <$> seq 0 j)
      ++ replicate (n - j) (Some (Http.buildConfig (Http.Data (Http.decoded body))), None))%list,
     Http.mkService (Some (Http.buildConfig (Http.Data (Http.decoded body)))),
     Http.mkTransport (Http.outcomes t) (Http.requests t + j + 1)).
Proof.
  revert t n. induction j as [|j IH]; intros t n Hs Hbad Hgood Hdec Hn.
  - destruct n as [|n]; [lia|]. rewrite Nat.add_0_r in Hgood.
    cbn [Http.SpecCalls].
    rewrite (Spec_fetches s t (Http.Data (Http.decoded body)))
      by (split; [done|by exists body]).
    rewrite (SpecCalls_cached n
               (Http.mkService (Some (Http.buildConfig (Http.Data (Http.decoded body)))))
               _ (Http.buildConfig (Http.Data (Http.decoded body))) eq_refl).
    simpl. by rewrite Nat.add_0_r, Nat.add_1_r.
  - destruct n as [|n]; [lia|].
    destruct (Hbad 0%nat ltac:(lia)) as [e He].
    rewrite Nat.add_0_r in He. pose proof He as He'.
    apply failureOf_fails in He'.
    cbn [Http.SpecCalls]. rewrite (Spec_unset s t Hs), He'.
    rewrite (IH (requested t) n); try done; try lia.
    + cbn [seq fmap list_fmap]. rewrite <- fmap_S_seq, <- list_fmap_compose.
      rewrite Nat.add_0_r, He'. simpl.
      replace (S (Http.requests t + j + 1))
        with (Http.requests t + S j + 1)%nat by lia.
      do 4 f_equal.
      apply list_fmap_ext. intros _ i _. simpl.
      by rewrite Nat.add_succ_r.
    + intros i Hi. simpl. rewrite <- Nat.add_succ_r. apply Hbad. lia.
    + simpl. by rewrite <- Nat.add_succ_r.
Qed.

Lemma Spec_retries_until_success_witness :
  let good := Http.mkReader (Http.mkSpecJSON {[ "CONFIG_NAME" := "mainnet" ]}) None in
  let t := Http.mkTransport
             (fun i => match i with
                       | 0%nat => (None, Some (Http.External "connection refused"))
                       | 1%nat => (None, None)
                       | _ => (Some good, None)
                       end) 0 in
  let config := Http.buildConfig {[ "CONFIG_NAME" := "mainnet" ]} in
  Http.SpecCalls 4 (Http.mkService None) t =
    ([(None, Some (Http.Wrap (Http.External "connection refused")
                             "failed to request spec"));
      (None, Some (Http.New "failed to obtain spec"));
      (Some config, None); (Some config, None)],
     Http.mkService (Some config),
     Http.mkTransport (Http.outcomes t) 3).
Proof.
  intros good t config.
  apply (Spec_retries_until_success (Http.mkService None) t 2 4 good);
    [reflexivity | | reflexivity | reflexivity | lia].
  intros i Hi. destruct i as [|[|i]]; [| |lia].
  - eexists. apply fails_request.
  - eexists. apply fails_nil_body.
Defined.

(** * Further properties of [Fork] *)

Section ForkFacts.
Context {ForkT error : Type}.

(** What the function literal returns is a nil result with an error, or a
    fork pointer with a nil error; never a value of another type. *)
Lemma forkCall_shape (client : Multi.Client ForkT error) (stateID : string)
    (res : Multi.iface ForkT) (err : option error) :
  Multi.forkCall stateID client = Multi.Returns (res, err) ->
  (res = Multi.Nil /\ is_Some err) \/
  (exists p, res = Multi.ForkPtr p /\ err = None).
Proof.
  unfold Multi.forkCall. destruct (Multi.forkProvider client) as [f|]; [|done].
  destruct (f stateID) as [fork [e|]]; intros [= <- <-]; eauto.
Qed.

End ForkFacts.

(** X13: whatever the dispatch engine is, if it hands back what the
    function literal returned for one of its handles, [Fork] does not
    panic and returns the answer of that handle's fork query: the error
    alone when there is one (a fork that came with it is dropped), the
    fork pointer otherwise, be it nil or not. *)
Theorem Fork_returns_backend_answer {ForkT error : Type}
    (doCall : Multi.callFunc ForkT error ->
              Multi.outcome (Multi.iface ForkT * option error))
    (client : Multi.Client ForkT error)
    (provider : string -> option ForkT * option error) (stateID : string) :
  Multi.forkProvider client = Some provider ->
  doCall (Multi.forkCall stateID) = Multi.forkCall stateID client ->
  Multi.Fork doCall stateID =
    Multi.Returns (match (provider stateID).2 with
                   | Some e => (None, Some e)
                   | None => ((provider stateID).1, None)
                   end).
Proof.
  intros Hp Hcall. unfold Multi.Fork. rewrite Hcall.
  unfold Multi.forkCall. rewrite Hp.
  by destruct (provider stateID) as [fork [e|]].
Qed.

Lemma Fork_returns_backend_answer_witness :
  Multi.Fork
    (fun call => call (Multi.mkClient "beacon-2"
                         (Some (fun _ : string =>
                                  (Some 7, Some "state not found")))))
    "head"
  = Multi.Returns (None : option Z, Some "state not found").
Proof.
  apply (Fork_returns_backend_answer
           (fun call => call (Multi.mkClient "beacon-2"
                                (Some (fun _ : string =>
                                         (Some 7, Some "state not found")))))
           (Multi.mkClient "beacon-2"
              (Some (fun _ : string => (Some 7, Some "state not found"))))
           (fun _ : string => (Some 7, Some "state not found")) "head");
    reflexivity.
Defined.

(** X14: a handle without the fork provider brings [Fork] down: when the
    engine's outcome is that of the function literal on such a handle,
    [Fork] panics with the failed type assertion and returns nothing. *)
Theorem Fork_panics_without_provider {ForkT error : Type}
    (doCall : Multi.callFunc ForkT error ->
              Multi.outcome (Multi.iface ForkT * option error))
    (client : Multi.Client ForkT error) (stateID : string) :
  Multi.forkProvider client = None ->
  doCall (Multi.forkCall stateID) = Multi.forkCall stateID client ->
  exists msg, Multi.Fork doCall stateID = Multi.Panics msg /\
    forall r, Multi.Fork doCall stateID <> Multi.Returns r.
Proof.
  intros Hp Hcall. unfold Multi.Fork. rewrite Hcall.
  unfold Multi.forkCall. rewrite Hp. eexists. split; [done|]. by intros r.
Qed.

Lemma Fork_panics_without_provider_witness :
  exists msg,
    Multi.Fork (ForkT := unit) (error := string)
      (fun call => call (Multi.mkClient "beacon-3" None)) "head"
    = Multi.Panics msg.
Proof.
  destruct (Fork_panics_without_provider
              (ForkT := unit) (error := string)
              (fun call => call (Multi.mkClient "beacon-3" None))
              (Multi.mkClient "beacon-3" None) "head" eq_refl eq_refl)
    as (msg & Hmsg & _).
  exists msg. exact Hmsg.
Defined.

(** X15: [Fork] panics in two cases only: the dispatch call panics, or
    it returns a nil error with a result that is neither nil nor a fork
    pointer.  With an error in hand [Fork] never looks at the result. *)
Theorem Fork_panics_iff {ForkT error : Type}
    (doCall : Multi.callFunc ForkT error ->
              Multi.outcome (Multi.iface ForkT * option error))
    (stateID : string) :
  (exists msg, Multi.Fork doCall stateID = Multi.Panics msg) <->
  (exists msg, doCall (Multi.forkCall stateID) = Multi.Panics msg) \/
  (exists typeName,
     doCall (Multi.forkCall stateID) = Multi.Returns (Multi.Other typeName, None)).
Proof.
  unfold Multi.Fork.
  destruct (doCall (Multi.forkCall stateID)) as [[res [e|]]|msg].
  - split; [by intros [? [=]]|]. by intros [[? [=]]|[? [=]]].
  - destruct res as [|p|typeName].
    + split; [by intros [? [=]]|]. by intros [[? [=]]|[? [=]]].
    + split; [by intros [? [=]]|]. by intros [[? [=]]|[? [=]]].
    + split; [|by eexists]. intros _. right. by eexists.
  - split; [|by eexists]. intros _. left. by eexists.
Qed.

(** X16: [Fork] never returns a fork together with an error.  What it
    returns is the error of the dispatch call with a nil fork, whatever
    result came with that error, or a nil error with the fork pointer
    that the dispatch call returned (nil for a nil result). *)
Theorem Fork_returns_fork_or_error {ForkT error : Type}
    (doCall : Multi.callFunc ForkT error ->
              Multi.outcome (Multi.iface ForkT * option error))
    (stateID : string) (fork : option ForkT) (err : option error) :
  Multi.Fork doCall stateID = Multi.Returns (fork, err) ->
  (exists res e, doCall (Multi.forkCall stateID) = Multi.Returns (res, Some e) /\
     fork = None /\ err = Some e) \/
  (err = None /\
   (doCall (Multi.forkCall stateID) = Multi.Returns (Multi.Nil, None) /\ fork = None \/
    doCall (Multi.forkCall stateID) = Multi.Returns (Multi.ForkPtr fork, None))).
Proof.
  unfold Multi.Fork.
  destruct (doCall (Multi.forkCall stateID)) as [[res [e|]]|msg]; [| |done].
  - intros [= <- <-]. left. by exists res, e.
  - destruct res as [|p|typeName]; [| |done].
    + intros [= <- <-]. right. split; [done|]. by left.
    + intros [= <- <-]. right. split; [done|]. by right.
Qed.

Lemma Fork_returns_fork_or_error_witness :
  exists res e,
    (fun _ : Multi.callFunc Z string =>
       Multi.Returns (Multi.Other (ForkT := Z) "string", Some "timeout"))
      (Multi.forkCall "head")
    = Multi.Returns (res, Some e) /\ e = "timeout".
Proof.
  destruct (Fork_returns_fork_or_error
              (fun _ : Multi.callFunc Z string =>
                 Multi.Returns (Multi.Other (ForkT := Z) "string", Some "timeout"))
              "head" None (Some "timeout") eq_refl)
    as [(res & e & Hcall & _ & He)|[He _]].
  - exists res, e. split; [exact Hcall|]. by injection He as <-.
  - discriminate He.
Defined.

(** * Further properties of the decoding of values *)

Section OddNumerals.
Import Http.

(** A numeral of an odd number of digits is not valid hex. *)
Lemma domainRule_odd_numeral (k v : string) (n : Z) :
  unsignedDecimal v = Some n ->
  Nat.even (String.length v) = false ->
  domainRule k v = None.
Proof.
  intros Hn Hodd. destruct (unsignedDecimal_allDigits v n Hn) as [Hall _].
  unfold domainRule. destruct (Strings.HasPrefix k "DOMAIN_"); [|done].
  unfold Strings.TrimPrefix. rewrite (allDigits_not_0x v Hall).
  destruct (Hex.DecodeString v) as [bs [e|]] eqn:Hb; [done|].
  pose proof (proj1 (Decode_ok_iff v)) as Hok.
  unfold Hex.DecodeString in Hb. rewrite Hb in Hok.
  destruct (Hok eq_refl) as [Heven _]. congruence.
Qed.

End OddNumerals.

(** X17: under a "DOMAIN_" key (that no other key test matches) the
    number of digits decides: a numeral of an odd number of digits is not
    valid hex, so it is stored like under any plain key, as the unsigned
    integer it denotes when that is between 1 and 2^64 - 1. *)
Theorem domain_key_odd_numeral (data : gmap string string) (k v : string) (n : Z) :
  data !! k = Some v ->
  Strings.HasPrefix k "DOMAIN_" = true ->
  Strings.HasSuffix k "_FORK_VERSION" = false ->
  Strings.HasSuffix k "_TIME" = false ->
  unsignedDecimal v = Some n ->
  Nat.even (String.length v) = false ->
  0 < n < Int.two64 ->
  Http.buildConfig data !! k = Some (Http.VUint64 n).
Proof.
  intros Hdata Hk Hf Ht Hn Hodd Hrange.
  destruct (unsignedDecimal_allDigits v n Hn) as [Hall _].
  rewrite buildConfig_lookup, Hdata. unfold Http.decodeEntry.
  assert (Http.firstMatch Http.rules k v =
          Http.firstMatch [Http.zeroRule; Http.integerRule] k v) as ->.
  { unfold Http.rules. cbn [Http.firstMatch].
    rewrite (domainRule_odd_numeral k v n Hn Hodd).
    unfold Http.forkVersionRule, Http.hexRule, Http.timeRule, Http.durationRule.
    rewrite Hf, (allDigits_not_0x v Hall), Ht.
    destruct (Strings.HasPrefix k "SECONDS_PER_" || String.eqb k "GENESIS_DELAY")
      eqn:Hd; [|done].
    pose proof (durationKey_not_domain k Hd). congruence. }
  rewrite (integer_tests_numeral k v n Hn).
  destruct (Z.ltb_spec 0 n); [|lia].
  by destruct (Z.ltb_spec n Int.two64); [|lia].
Qed.

Lemma domain_key_odd_numeral_witness :
  Http.buildConfig {[ "DOMAIN_COUNT" := "128" ]} !! "DOMAIN_COUNT"
  = Some (Http.VUint64 128).
Proof.
  apply (domain_key_odd_numeral _ "DOMAIN_COUNT" "128" 128);
    [reflexivity | reflexivity | reflexivity | reflexivity | reflexivity
    | reflexivity | by vm_compute].
Defined.

(** X18: [hex.DecodeString], as [Spec] calls it, reports no error exactly
    on an even number of hexadecimal digits, of either case; what it
    returns is a sequence of bytes, one for every two characters when
    there is no error. *)
Theorem DecodeString_accepts (s : string) :
  ((Hex.DecodeString s).2 = None <->
   Nat.even (String.length s) = true /\ allHexDigits s = true) /\
  Forall is_byte (Hex.DecodeString s).1 /\
  ((Hex.DecodeString s).2 = None ->
   String.length s = (2 * length (Hex.DecodeString s).1)%nat).
Proof.
  split; [apply Decode_ok_iff|]. split; [apply Decode_bytes|].
  unfold Hex.DecodeString. destruct (Hex.Decode s) as [bs e] eqn:Hb.
  simpl. intros ->. by apply Decode_length.
Qed.

(** X19: [strconv.ParseUint(v, 10, 64)], as [Spec] calls it, returns a
    number and no error exactly when the value is a nonempty string of
    decimal digits that denotes a number below 2^64, and the number it
    returns is that one; no sign, no blank and no underscore is let
    through. *)
Theorem ParseUint_accepts (v : string) (n : Z) :
  Strconv.ParseUint v = (n, None) <->
  v <> "" /\ allDigits v = true /\ n = decimalValue v 0 /\ 0 <= n < Int.two64.
Proof.
  rewrite ParseUint_ok_iff. split.
  - intros [Hn Hlt].
    destruct (unsignedDecimal_allDigits v n Hn) as [Hall Hne].
    pose proof (unsignedDecimal_nonneg v n Hn).
    repeat split; try done.
    destruct v as [|c rest]; [done|]. unfold unsignedDecimal in Hn.
    rewrite Hall in Hn. by injection Hn.
  - intros (Hne & Hall & -> & _ & Hlt). split; [|done].
    destruct v as [|c rest]; [done|]. unfold unsignedDecimal. by rewrite Hall.
Qed.

(** X20: [strconv.ParseInt(v, 10, 64)], as [Spec] calls it, returns a
    number and no error exactly when the value is a numeral with at most
    one sign in front, "+" or "-", that denotes an integer from -2^63 to
    2^63 - 1, and the number it returns is that one.  On a numeral
    without sign of a number below 2^63 it agrees with [ParseUint]. *)
Theorem ParseInt_accepts (v : string) (n : Z) :
  (Strconv.ParseInt v = (n, None) <->
   signedDecimal v = Some n /\ - Int.two63 <= n < Int.two63) /\
  (unsignedDecimal v = Some n -> n < Int.two63 ->
   Strconv.ParseInt v = (n, None) /\ Strconv.ParseUint v = (n, None)).
Proof.
  split; [apply ParseInt_ok_iff|]. intros Hn Hlt.
  pose proof (unsignedDecimal_nonneg v n Hn) as Hn0.
  assert (Int.two63 = 9223372036854775808) as H63 by reflexivity.
  assert (Int.two64 = 18446744073709551616) as H64 by reflexivity.
  split.
  - apply ParseInt_ok_iff. split; [by apply signedDecimal_unsigned|lia].
  - apply ParseUint_ok_iff. split; [done|lia].
Qed.

Lemma ParseInt_accepts_witness :
  Strconv.ParseInt "-9223372036854775808" = (-9223372036854775808, None).
Proof.
  destruct (ParseInt_accepts "-9223372036854775808" (-9223372036854775808))
    as [[_ Hok] _].
  apply Hok. split; [reflexivity|]. by vm_compute.
Defined.

Lemma ParseUint_accepts_witness :
  Strconv.ParseUint "18446744073709551615" = (18446744073709551615, None).
Proof.
  apply (ParseUint_accepts "18446744073709551615" 18446744073709551615).
  repeat split; by vm_compute.
Defined.

Lemma DecodeString_accepts_witness :
  (Hex.DecodeString "0aF3").2 = None.
Proof.
  destruct (DecodeString_accepts "0aF3") as [[_ Hok] _].
  apply Hok. split; reflexivity.
Defined.
